(** * Workout project: the chat page (workout.py) and the analysis page
    (analysis.py), embedded as Rocq functions.

    Python values are modelled as follows.
    - [str] is [string]; one [ascii] stands for one character of the text
      (the slices and [lower] below act per character).
    - A call that may raise returns a [result]; [try: ... except ...] is
      [try_except] / [try_except_if].
    - Streamlit's session state and the widgets it draws are an explicit
      [World] threaded through the chat page.
    - What lies outside the repository (the completion API, the exercise
      catalogue reached through [requests], Streamlit's secrets, the sort
      kernel under pandas' [sort_values] and the text pandas gives a
      frequency table) is a field of an environment class: every theorem
      holds for every behaviour of these services. *)

From Stdlib Require Import ZArith QArith Sorting.Sorted.
From stdpp Require Import base strings list gmap pretty sorting.


Local Open Scope Z_scope.

(** ** Python runtime: exceptions and results *)

(** The exception classes that occur in the two files.  The first four are
    the classes of [requests.exceptions] (all subclasses of
    [RequestException]; [JSONDecodeError] is one through
    [InvalidJSONError]).  Every class listed derives from [Exception]. *)
Inductive exception_class :=
  | ConnectionError | Timeout | HTTPError | JSONDecodeError
  | APIError
  | KeyError | IndexError | TypeError | ValueError | AttributeError.

Record exception := Exc { exc_class : exception_class; exc_str : string }.

Definition is_RequestException (e : exception) : bool :=
  match exc_class e with
  | ConnectionError | Timeout | HTTPError | JSONDecodeError => true
  | _ => false
  end.

Inductive result (A : Type) :=
  | Ok (a : A)
  | Raise (e : exception).
Arguments Ok {A} a.
Arguments Raise {A} e.

Definition rbind {A B} (r : result A) (k : A → result B) : result B :=
  match r with
  | Ok a => k a
  | Raise e => Raise e
  end.

(** [try: body  except Exception as e: handler e] *)
Definition try_except {A} (body : result A) (handler : exception → result A)
  : result A :=
  match body with
  | Ok a => Ok a
  | Raise e => handler e
  end.

Global Instance result_ret : MRet result := λ A a, Ok a.
Global Instance result_bind : MBind result := λ A B k r, rbind r k.

(** [l[0]] *)
Definition index0 {A} (l : list A) : result A :=
  match l with
  | x :: _ => Ok x
  | [] => Raise (Exc IndexError "list index out of range")
  end.

(** ** Python string operations *)

(** Lower case of one character, read as a code point below 256: the
    capitals A-Z and the accented capitals 192-222 (215, the
    multiplication sign, is not a letter) move up by 32. *)
Definition lower_char (c : Ascii.ascii) : Ascii.ascii :=
  let n := Ascii.nat_of_ascii c in
  if ((65 <=? n)%nat && (n <=? 90)%nat
      || (192 <=? n)%nat && (n <=? 222)%nat && negb (n =? 215)%nat)%bool
  then Ascii.ascii_of_nat (n + 32) else c.

(** [s.lower()] *)
Fixpoint lower (s : string) : string :=
  match s with
  | EmptyString => EmptyString
  | String c s' => String (lower_char c) (lower s')
  end.

(** [s[:n]] *)
Fixpoint slice_to (n : nat) (s : string) : string :=
  match n, s with
  | S n', String c s' => String c (slice_to n' s')
  | _, _ => EmptyString
  end.

(** [sep.join(l)] *)
Fixpoint join (sep : string) (l : list string) : string :=
  match l with
  | [] => EmptyString
  | [x] => x
  | x :: l' => x +:+ sep +:+ join sep l'
  end.

Definition nl : string := String (Ascii.ascii_of_nat 10) EmptyString.

Fixpoint spaces (n : nat) : string :=
  match n with
  | O => EmptyString
  | S n' => String (Ascii.ascii_of_nat 32) (spaces n')
  end.

(** ** Shared data: chat messages and the completion service *)

Inductive role := system | user | assistant.

(** A message dict; [content] is a Python value that may be [None]. *)
Record ChatMessage := Msg { msg_role : role; content : option string }.

(** One entry of the [functions] argument; only the equipment enumeration
    depends on loaded data. *)
Record FunctionSchema := {
  fn_name : string;
  fn_description : string;
  fn_equipment_enum : list string
}.

(** Keyword arguments of [client.chat.completions.create]. *)
Record CreateArgs := {
  model : string;
  messages : list ChatMessage;
  functions : option (list FunctionSchema);
  function_call : option string;
  max_tokens : option Z;
  temperature : Q;
  stream : bool
}.

(** [response.choices[i].message.content] may be [None]. *)
Record Choice := { message_content : option string }.
Record ChatCompletion := { choices : list Choice }.

(** A streamed chunk: [chunk.choices[i].delta.content] may be [None]. *)
Record Chunk := { chunk_choices : list (option string) }.

(** A stream delivers some chunks and then either ends or raises. *)
Record Stream := { chunks : list Chunk; interrupted : option exception }.

Module Workout.

(** *** Collaborators of workout.py *)

Record EquipmentItem := { Equipment_Name : string; Purpose : string }.

(** An exercise record of the catalogue service (pass-through). *)
Record Exercise := { name : string; instructions : string; muscle : string }.

(** What [requests.get] hands back: the status line and the decoded body
    ([None] when the body is not JSON). *)
Record Response := {
  status_code : Z;
  reason : string;
  resp_url : string;
  body_json : option (list Exercise)
}.

Class Env := {
  (** [st.secrets["API_KEY_N"]] *)
  API_NINJAS_KEY : string;
  (** [load_equipment_data()], the empty list when the CSV cannot be read *)
  equipment_data : list EquipmentItem;
  (** [requests.get(url, headers=..., params=...)] *)
  requests_get :
    string → list (string * string) → list (string * string) → result Response;
  (** [client.chat.completions.create(..., stream=False)] *)
  create : CreateArgs → result ChatCompletion;
  (** [client.chat.completions.create(..., stream=True)] *)
  create_stream : CreateArgs → result Stream
}.

(** *** Streamlit state *)

Inductive UIEvent :=
  | st_error (msg : string)
  | st_write (text : string)
  | st_chat_message (who : role)
  | st_empty
  | placeholder_markdown (text : string).

Record World := {
  session_messages : list ChatMessage;   (* st.session_state.messages *)
  screen : list UIEvent                  (* what was drawn, oldest first *)
}.

Definition M (A : Type) : Type := World → result A * World.

Definition ret {A} (a : A) : M A := λ w, (Ok a, w).

Definition bind {A B} (m : M A) (k : A → M B) : M B :=
  λ w, match m w with
       | (Ok a, w') => k a w'
       | (Raise e, w') => (Raise e, w')
       end.

Definition lift {A} (r : result A) : M A := λ w, (r, w).

Definition draw (ev : UIEvent) : M unit :=
  λ w, (Ok tt, {| session_messages := session_messages w;
                  screen := screen w ++ [ev] |}).

(** [st.session_state.messages.append(m)] *)
Definition append_message (m : ChatMessage) : M unit :=
  λ w, (Ok tt, {| session_messages := session_messages w ++ [m];
                  screen := screen w |}).

(** [try: body  except <classes accepted by catches> as e: handler e];
    an exception of another class propagates. *)
Definition try_except_if {A} (catches : exception → bool)
    (body : M A) (handler : exception → M A) : M A :=
  λ w, match body w with
       | (Ok a, w') => (Ok a, w')
       | (Raise e, w') => if catches e then handler e w' else (Raise e, w')
       end.

Global Instance M_ret : MRet M := @ret.
Global Instance M_bind : MBind M := λ A B k m, bind m k.

Section Code.
Context `{Env}.

(** *** get_exercise_info *)

(** [response.raise_for_status()] of requests: an [HTTPError] for the
    client-error (4xx) and server-error (5xx) statuses, nothing otherwise. *)
Definition raise_for_status (r : Response) : result unit :=
  if (400 <=? status_code r) && (status_code r <? 500) then
    Raise (Exc HTTPError (pretty (status_code r) +:+ " Client Error: "
                            +:+ reason r +:+ " for url: " +:+ resp_url r))
  else if (500 <=? status_code r) && (status_code r <? 600) then
    Raise (Exc HTTPError (pretty (status_code r) +:+ " Server Error: "
                            +:+ reason r +:+ " for url: " +:+ resp_url r))
  else Ok tt.

(** [response.json()] *)
Definition json (r : Response) : result (list Exercise) :=
  match body_json r with
  | Some v => Ok v
  | None => Raise (Exc JSONDecodeError "Expecting value: line 1 column 1 (char 0)")
  end.

Definition exercises_url : string := "https://api.api-ninjas.com/v1/exercises".

Definition get_exercise_info (muscle : string) : M (list Exercise) :=
  let url := exercises_url in
  let headers := [("X-Api-Key", API_NINJAS_KEY)] in
  let params := [("muscle", lower muscle)] in
  try_except_if is_RequestException
    (lift (response ← requests_get url headers params;
           raise_for_status response;;
           json response))
    (λ e, draw (st_error ("Error fetching exercise data: " +:+ exc_str e));;
          mret []).

(** *** Equipment *)

Definition get_available_equipment : list string :=
  Equipment_Name <$> equipment_data.

Definition recommend_functions : list FunctionSchema :=
  [ {| fn_name := "recommend_equipment_exercises";
       fn_description :=
         "Get exercise recommendations based on available equipment";
       fn_equipment_enum := get_available_equipment |} ].

(** *** generate_chat_response *)

Definition chat_args (msgs : list ChatMessage) (streaming : bool) : CreateArgs :=
  {| model := "gpt-4o-mini";
     messages := msgs;
     functions := Some recommend_functions;
     function_call := Some "auto";
     max_tokens := Some 500;
     temperature := 7 # 10;
     stream := streaming |}.

(** The body of [for chunk in response], started with the text gathered so
    far; it returns the text gathered at the end. *)
Fixpoint consume (cs : list Chunk) (full_response : string) : M string :=
  match cs with
  | [] => mret full_response
  | chunk :: rest =>
      delta ← lift (index0 (chunk_choices chunk));
      match delta with
      | Some text =>
          let full_response := full_response +:+ text in
          draw (placeholder_markdown (full_response +:+ "▌"));;
          consume rest full_response
      | None => consume rest full_response
      end
  end.

Definition apology : string :=
  "I'm having trouble generating a response right now. Please try again.".

Definition generate_chat_response (msgs : list ChatMessage) (streaming : bool)
  : M (option string) :=
  try_except_if (λ _, true)
    (if streaming then
       response ← lift (create_stream (chat_args msgs true));
       draw st_empty;;
       full_response ← consume (chunks response) EmptyString;
       match interrupted response with
       | Some e => lift (Raise e)
       | None =>
           draw (placeholder_markdown full_response);;
           mret (Some full_response)
       end
     else
       response ← lift (create (chat_args msgs false));
       choice ← lift (index0 (choices response));
       mret (message_content choice))
    (λ e, draw (st_error ("Error generating response: " +:+ exc_str e));;
          mret (Some apology)).

(** *** extract_muscle_group *)

Definition extract_instruction : string :=
  "You are a fitness expert. Extract the muscle group from the following text. Reply with ONLY the muscle group name. If no muscle group is mentioned, reply with 'none'.".

Definition extract_args (text : string) : CreateArgs :=
  {| model := "gpt-4";
     messages := [Msg system (Some extract_instruction); Msg user (Some text)];
     functions := None;
     function_call := None;
     max_tokens := Some 50;
     temperature := 0;
     stream := false |}.

Definition extract_muscle_group (text : string) : result string :=
  try_except
    (response ← create (extract_args text);
     choice ← index0 (choices response);
     match message_content choice with
     | Some reply => Ok (lower reply)
     | None =>
         Raise (Exc AttributeError "'NoneType' object has no attribute 'lower'")
     end)
    (λ _, Ok "none").

(** *** The chat turn *)

(** One line of [exercise_info]. *)
Definition exercise_line (ex : Exercise) : string :=
  "• " +:+ name ex +:+ ": " +:+ slice_to 100 (instructions ex) +:+ "...".

(** The list comprehension over [exercises[:3]]. *)
Definition exercise_lines (exercises : list Exercise) : list string :=
  exercise_line <$> take 3 exercises.

Definition exercise_info (exercises : list Exercise) : string :=
  join nl (exercise_lines exercises).

Definition instructor : string :=
  "You are a knowledgeable and friendly fitness instructor.".

Definition equipment_sentence : string :=
  "Available equipment: " +:+ join ", " get_available_equipment +:+ ".".

Definition system_found : string :=
  instructor +:+ " " +:+ nl +:+ spaces 16 +:+ equipment_sentence +:+ " " +:+ nl
  +:+ spaces 16
  +:+ "Provide helpful, encouraging advice about exercises and suggest exercises using available equipment. "
  +:+ nl +:+ spaces 16 +:+ "Keep responses concise and engaging.".

Definition system_plain (indent : nat) : string :=
  instructor +:+ nl +:+ spaces indent +:+ equipment_sentence.

Definition found_text (muscle_group : string) (exercises : list Exercise) : string :=
  "I found some exercises for " +:+ muscle_group +:+ ". Here are the details:"
  +:+ nl +:+ exercise_info exercises.

Definition no_match_text (muscle_group : string) : string :=
  "While I couldn't find specific exercises for " +:+ muscle_group
  +:+ " in my database, I can provide general fitness advice based on our available equipment.".

(** The [if muscle_group != "none": ... else: ...] block that builds
    [messages]. *)
Definition compose_messages (prompt muscle_group : string)
  : M (list ChatMessage) :=
  if decide (muscle_group ≠ "none") then
    exercises ← get_exercise_info muscle_group;
    match exercises with
    | _ :: _ =>
        mret [ Msg system (Some system_found);
               Msg user (Some prompt);
               Msg assistant (Some (found_text muscle_group exercises)) ]
    | [] =>
        mret [ Msg system (Some (system_plain 16));
               Msg user (Some prompt);
               Msg assistant (Some (no_match_text muscle_group)) ]
    end
  else
    mret [ Msg system (Some (system_plain 12));
           Msg user (Some prompt) ].

(** The body of [if prompt := st.chat_input(...)], up to the point where
    [messages] is built ... *)
Definition prepare_turn (prompt : string) : M (list ChatMessage) :=
  append_message (Msg user (Some prompt));;
  draw (st_chat_message user);;
  draw (st_write prompt);;
  muscle_group ← lift (extract_muscle_group prompt);
  compose_messages prompt muscle_group.

(** ... and the whole of it. *)
Definition on_chat_input (prompt : string) : M unit :=
  msgs ← prepare_turn prompt;
  draw (st_chat_message assistant);;
  response ← generate_chat_response msgs true;
  append_message (Msg assistant response).

(** [st.chat_input] gives [None] or the submitted text; the walrus test
    skips [None] and the empty text. *)
Definition chat_turn (input : option string) : M unit :=
  match input with
  | Some prompt =>
      if decide (prompt = EmptyString) then mret tt else on_chat_input prompt
  | None => mret tt
  end.

(** *** get_equipment_purpose *)

(** The [for item in equipment_data] loop, over the items still to visit. *)
Fixpoint purpose_among (items : list EquipmentItem) (equipment_name : string)
  : string :=
  match items with
  | [] => "Purpose not found"
  | item :: rest =>
      if decide (lower (Equipment_Name item) = lower equipment_name)
      then Purpose item
      else purpose_among rest equipment_name
  end.

Definition get_equipment_purpose (equipment_name : string) : string :=
  purpose_among equipment_data equipment_name.

(** *** Vocabulary of the properties *)

(** The extraction fails when the completion call raises, or answers
    without a choice, or answers with a choice that has no text. *)
Definition extraction_fails (text : string) : Prop :=
  match create (extract_args text) with
  | Raise _ => True
  | Ok response =>
      match choices response with
      | [] => True
      | choice :: _ => message_content choice = None
      end
  end.

(** The request that [get_exercise_info] sends for [muscle]. *)
Definition lookup_request (muscle : string) : result Response :=
  requests_get "https://api.api-ninjas.com/v1/exercises"
    [("X-Api-Key", API_NINJAS_KEY)] [("muscle", lower muscle)].

Definition report (w : World) (ev : UIEvent) : World :=
  {| session_messages := session_messages w; screen := screen w ++ [ev] |}.

(** The exception that reading the chunks of a stream raises, if any: a
    chunk without a choice makes [chunk.choices[0]] raise. *)
Fixpoint chunk_failure (cs : list Chunk) : option exception :=
  match cs with
  | [] => None
  | chunk :: rest =>
      match chunk_choices chunk with
      | [] => Some (Exc IndexError "list index out of range")
      | _ :: _ => chunk_failure rest
      end
  end.

(** The exception with which the streamed completion for [msgs] fails, if
    it fails: the one the call raises, or the one raised while the stream
    is read (by a chunk, or by the stream itself after its chunks). *)
Definition completion_failure (msgs : list ChatMessage) : option exception :=
  match create_stream (chat_args msgs true) with
  | Raise e => Some e
  | Ok s =>
      match chunk_failure (chunks s) with
      | Some e => Some e
      | None => interrupted s
      end
  end.

(** [w'] is [w] with more drawn on the screen and the same transcript. *)
Definition draws_only (w w' : World) : Prop :=
  session_messages w' = session_messages w
  ∧ ∃ drawn, screen w' = screen w ++ drawn.

End Code.

(** The text pieces of a stream: the first choice's delta of each chunk,
    where it has one. *)
Definition deltas (cs : list Chunk) : list string :=
  omap (λ chunk, head (chunk_choices chunk) ≫= id) cs.

(** The texts gathered after each piece, starting from [shown]. *)
Fixpoint running (shown : string) (pieces : list string) : list string :=
  match pieces with
  | [] => []
  | piece :: rest => (shown +:+ piece) :: running (shown +:+ piece) rest
  end.

(** All pieces in one text. *)
Definition whole (pieces : list string) : string :=
  foldr String.append EmptyString pieces.

Definition cursor : string := "▌".

(** *** load_equipment_data *)


(** *** Sample environments *)

Definition gym : list EquipmentItem :=
  [ {| Equipment_Name := "Dumbbells"; Purpose := "Strength training" |};
    {| Equipment_Name := "Bench"; Purpose := "Support for presses" |} ].

Definition hammer_curl : Exercise :=
  {| name := "Incline Hammer Curls";
     instructions := "Seat yourself on an incline bench with a dumbbell in each hand.";
     muscle := "biceps" |}.

Definition concentration_curl : Exercise :=
  {| name := "Concentration curl";
     instructions := "Sit down on a flat bench with one dumbbell in front of you between your legs. Your legs should be spread with your knees bent and your feet on the floor.";
     muscle := "biceps" |}.

Definition answer (text : string) : ChatCompletion :=
  {| choices := [ {| message_content := Some text |} ] |}.

Definition blank : World := {| session_messages := []; screen := [] |}.

(** Neither the catalogue nor the completion service can be reached. *)
Definition offline : Env :=
  {| API_NINJAS_KEY := "key";
     equipment_data := gym;
     requests_get := λ _ _ _, Raise (Exc ConnectionError "Connection refused");
     create := λ _, Raise (Exc APIError "Connection error.");
     create_stream := λ _, Raise (Exc APIError "Connection error.") |}.

(** The extractor answers "Biceps", the catalogue knows no such exercise,
    and the chat stream breaks after its first chunk. *)
Definition biceps_unknown : Env :=
  {| API_NINJAS_KEY := "key";
     equipment_data := gym;
     requests_get := λ _ _ _,
       Ok {| status_code := 200; reason := "OK"; resp_url := exercises_url;
             body_json := Some [] |};
     create := λ _, Ok (answer "Biceps");
     create_stream := λ _,
       Ok {| chunks := [ {| chunk_choices := [Some "Try"] |} ];
             interrupted := Some (Exc APIError "Connection error.") |} |}.

(** As above, but the catalogue has one exercise. *)
Definition biceps_known : Env :=
  {| API_NINJAS_KEY := "key";
     equipment_data := gym;
     requests_get := λ _ _ _,
       Ok {| status_code := 200; reason := "OK"; resp_url := exercises_url;
             body_json := Some [hammer_curl] |};
     create := λ _, Ok (answer "Biceps");
     create_stream := λ _,
       Ok {| chunks := [ {| chunk_choices := [Some "Try"] |} ];
             interrupted := None |} |}.

(** The extractor's model replies with the empty text. *)
Definition silent_model : Env :=
  {| API_NINJAS_KEY := "key";
     equipment_data := gym;
     requests_get := λ _ _ _, Raise (Exc ConnectionError "Connection refused");
     create := λ _, Ok (answer EmptyString);
     create_stream := λ _, Raise (Exc APIError "Connection error.") |}.

(** The catalogue answers 300 Multiple Choices with a JSON list. *)
Definition multiple_choices : Response :=
  {| status_code := 300; reason := "Multiple Choices";
     resp_url := exercises_url; body_json := Some [hammer_curl] |}.

Definition undecided_catalogue : Env :=
  {| API_NINJAS_KEY := "key";
     equipment_data := gym;
     requests_get := λ _ _ _, Ok multiple_choices;
     create := λ _, Ok (answer "Biceps");
     create_stream := λ _, Raise (Exc APIError "Connection error.") |}.

(** The catalogue answers 404. *)
Definition missing_catalogue : Env :=
  {| API_NINJAS_KEY := "key";
     equipment_data := gym;
     requests_get := λ _ _ _,
       Ok {| status_code := 404; reason := "Not Found";
             resp_url := exercises_url; body_json := None |};
     create := λ _, Ok (answer "Biceps");
     create_stream := λ _, Raise (Exc APIError "Connection error.") |}.

(** The transport fails inside the client library with an exception that
    is not a [RequestException]. *)
Definition broken_transport : Env :=
  {| API_NINJAS_KEY := "key";
     equipment_data := gym;
     requests_get := λ _ _ _, Raise (Exc TypeError "expected string or bytes-like object");
     create := λ _, Ok (answer "Biceps");
     create_stream := λ _, Raise (Exc APIError "Connection error.") |}.

(** The catalogue answers 200 with a body that is not JSON. *)
Definition junk_body : Env :=
  {| API_NINJAS_KEY := "key";
     equipment_data := gym;
     requests_get := λ _ _ _,
       Ok {| status_code := 200; reason := "OK"; resp_url := exercises_url;
             body_json := None |};
     create := λ _, Ok (answer "Biceps");
     create_stream := λ _, Raise (Exc APIError "Connection error.") |}.

(** The chat stream delivers two pieces of text around an empty delta. *)
Definition coach_stream : Stream :=
  {| chunks := [ {| chunk_choices := [Some "Start"] |};
                 {| chunk_choices := [None] |};
                 {| chunk_choices := [Some " light."] |} ];
     interrupted := None |}.

Definition coach : Env :=
  {| API_NINJAS_KEY := "key";
     equipment_data := gym;
     requests_get := λ _ _ _,
       Ok {| status_code := 200; reason := "OK"; resp_url := exercises_url;
             body_json := Some [hammer_curl] |};
     create := λ _, Ok (answer "Biceps");
     create_stream := λ _, Ok coach_stream |}.


End Workout.

Module Analysis.

(** *** Data of analysis.py *)

(** A calendar date of the log store, counted in days from 1970-01-01. *)
Definition days_from_civil (y m d : Z) : Z :=
  let y' := if m <=? 2 then y - 1 else y in
  let era := y' / 400 in
  let yoe := y' - era * 400 in
  let doy := (153 * (if 2 <? m then m - 3 else m + 9) + 2) / 5 + d - 1 in
  let doe := yoe * 365 + yoe / 4 - yoe / 100 + doy in
  era * 146097 + doe - 719468.

(** An object of the per-user JSON log.  The log stores calendar dates,
    without a time of day; [log_date] is the date as a day number. *)
Record LogEntry := {
  log_date : Z;
  log_exercise_name : string;
  log_muscle_group : string;
  log_workout_type : string;
  log_difficulty : string;
  log_first_set : string;
  log_second_set : string;
  log_third_set : string
}.

(** A row of the data frame; [date] is a pandas Timestamp, in nanoseconds
    from the epoch. *)
Record Row := {
  date : Z;
  exercise_name : string;
  muscle_group : string;
  workout_type : string;
  difficulty : string;
  first_set : string;
  second_set : string;
  third_set : string
}.

Definition ns_per_day : Z := 86400 * 1000000000.

(** [pd.to_datetime] of a calendar date: midnight of that day. *)
Definition to_datetime (day : Z) : Z := day * ns_per_day.

(** [Timedelta.days]: whole days, rounded down. *)
Definition Timedelta_days (delta : Z) : Z := delta / ns_per_day.

(** [df = pd.DataFrame(memories); df['date'] = pd.to_datetime(df['date'])] *)
Definition frame_of (memories : list LogEntry) : list Row :=
  (λ e, {| date := to_datetime (log_date e);
           exercise_name := log_exercise_name e;
           muscle_group := log_muscle_group e;
           workout_type := log_workout_type e;
           difficulty := log_difficulty e;
           first_set := log_first_set e;
           second_set := log_second_set e;
           third_set := log_third_set e |}) <$> memories.

(** The calendar date (year, month, day) of a day number. *)
Definition civil_from_days (days : Z) : Z * Z * Z :=
  let z := days + 719468 in
  let era := z / 146097 in
  let doe := z - era * 146097 in
  let yoe := (doe - doe / 1460 + doe / 36524 - doe / 146096) / 365 in
  let doy := doe - (365 * yoe + yoe / 4 - yoe / 100) in
  let mp := (5 * doy + 2) / 153 in
  let d := doy - (153 * mp + 2) / 5 + 1 in
  let m := if mp <? 10 then mp + 3 else mp - 9 in
  (if m <=? 2 then yoe + era * 400 + 1 else yoe + era * 400, m, d).

Definition two_digits (n : Z) : string :=
  if n <? 10 then "0" +:+ pretty n else pretty n.

(** [ts.strftime('%Y-%m-%d')] of a Timestamp (years have four digits in
    the range of Timestamps). *)
Definition strftime (ts : Z) : string :=
  let '(y, m, d) := civil_from_days (Timedelta_days ts) in
  pretty y +:+ "-" +:+ two_digits m +:+ "-" +:+ two_digits d.

Class Env := {
  (** [st.secrets[key]] *)
  st_secrets : string → result string;
  (** the text of [column.value_counts().to_dict()] inside an f-string *)
  counts_text : list string → string;
  (** [client.chat.completions.create(...)] *)
  create : CreateArgs → result ChatCompletion;
  (** numpy's [argsort(kind='quicksort')], the kernel under
      [sort_values] *)
  argsort : list Z → list nat
}.

(** What numpy documents of [argsort]: the result lists every position
    once and reads the values in ascending order.  The order among equal
    values is not part of it (only 'stable' and 'mergesort' keep it). *)
Definition argsort_contract (f : list Z → list nat) : Prop :=
  ∀ vs, f vs ≡ₚ seq 0 (length vs) ∧ Sorted Z.le ((λ i, nth i vs 0) <$> f vs).

(** *** numpy's quicksort kernel

    The index sort that numpy runs for [kind='quicksort'] on a datetime
    column ([aquicksort] of npysort/quicksort): the positions [0..n-1] are
    permuted in place; ranges of more than 17 positions are split around
    the median of their first, middle and last value, shorter ranges are
    sorted by insertion.  [tosort] is the array of positions, [v] the
    values. *)

(** [v[*p]] *)
Definition key_at (v : list Z) (tosort : list nat) (p : nat) : Z :=
  nth (nth p tosort 0%nat) v 0.

(** [INTP_SWAP] of the positions stored at [p] and [q] *)
Definition swap_at (p q : nat) (tosort : list nat) : list nat :=
  <[p := nth q tosort 0%nat]> (<[q := nth p tosort 0%nat]> tosort).

(** [if (LT(v[*p], v[*q]))] then swap the two *)
Definition order_pair (v : list Z) (p q : nat) (tosort : list nat) : list nat :=
  if key_at v tosort p <? key_at v tosort q then swap_at p q tosort else tosort.

(** [do ++pi; while (LT(v[*pi], vp))] *)
Fixpoint scan_up (fuel : nat) (v : list Z) (tosort : list nat) (vp : Z)
    (pi : nat) : nat :=
  match fuel with
  | O => S pi
  | S fuel' =>
      if key_at v tosort (S pi) <? vp then scan_up fuel' v tosort vp (S pi)
      else S pi
  end.

(** [do --pj; while (LT(vp, v[*pj]))] *)
Fixpoint scan_down (fuel : nat) (v : list Z) (tosort : list nat) (vp : Z)
    (pj : nat) : nat :=
  match fuel with
  | O => pred pj
  | S fuel' =>
      if vp <? key_at v tosort (pred pj) then scan_down fuel' v tosort vp (pred pj)
      else pred pj
  end.

(** The [for (;;)] loop of the partition; it returns the array and [pi]. *)
Fixpoint partition_loop (fuel : nat) (v : list Z) (vp : Z) (tosort : list nat)
    (pi pj : nat) : list nat * nat :=
  match fuel with
  | O => (tosort, pi)
  | S fuel' =>
      let pi := scan_up (length tosort) v tosort vp pi in
      let pj := scan_down (length tosort) v tosort vp pj in
      if (pj <=? pi)%nat then (tosort, pi)
      else partition_loop fuel' v vp (swap_at pi pj tosort) pi pj
  end.

(** One partition of the range [pl..pr]; it returns the array and the final
    place [pi] of the pivot. *)
Definition partition (v : list Z) (tosort : list nat) (pl pr : nat)
  : list nat * nat :=
  let pm := (pl + (pr - pl) / 2)%nat in
  let tosort := order_pair v pm pl tosort in
  let tosort := order_pair v pr pm tosort in
  let tosort := order_pair v pm pl tosort in
  let vp := key_at v tosort pm in
  let tosort := swap_at pm (pr - 1) tosort in
  let '(tosort, pi) :=
    partition_loop (length tosort) v vp tosort pl (pr - 1) in
  (swap_at pi (pr - 1) tosort, pi).

(** The [while (pj > pl && LT(vp, v[*pk]))] loop of the insertion sort. *)
Fixpoint shift_up (fuel : nat) (v : list Z) (vp : Z) (pl : nat)
    (tosort : list nat) (pj : nat) : list nat * nat :=
  match fuel with
  | O => (tosort, pj)
  | S fuel' =>
      if (pl <? pj)%nat && (vp <? key_at v tosort (pj - 1))
      then shift_up fuel' v vp pl
             (<[pj := nth (pj - 1) tosort 0%nat]> tosort) (pj - 1)
      else (tosort, pj)
  end.

(** The insertion sort of the range [pl..pr]. *)
Definition insertion_sort (v : list Z) (pl pr : nat) (tosort : list nat)
  : list nat :=
  foldl (λ tosort pi,
           let vi := nth pi tosort 0%nat in
           let '(tosort, pj) :=
             shift_up (length tosort) v (nth vi v 0) pl tosort pi in
           <[pj := vi]> tosort)
        tosort (seq (S pl) (pr - pl)).

(** A range taken from the stack with depth budget [cdepth] ([sort_popped]),
    and the loop that splits a range while it is long ([sort_range]).
    Below the budget numpy switches to a heap sort, which is left out
    here: the result is then [None]. *)
Fixpoint sort_range (fuel : nat) (cdepth : Z) (v : list Z) (tosort : list nat)
    (pl pr : nat) : option (list nat) :=
  if (16 <? pr - pl)%nat then
    match fuel with
    | O => None
    | S fuel' =>
        let '(tosort, pi) := partition v tosort pl pr in
        let cdepth := cdepth - 1 in
        if (pi - pl <? pr - pi)%nat then
          (* the right part is pushed, the left part is sorted first *)
          tosort ← sort_range fuel' cdepth v tosort pl (pi - 1);
          if cdepth <? 0 then None
          else sort_range fuel' cdepth v tosort (pi + 1) pr
        else
          tosort ← sort_range fuel' cdepth v tosort (pi + 1) pr;
          if cdepth <? 0 then None
          else sort_range fuel' cdepth v tosort pl (pi - 1)
    end
  else Some (insertion_sort v pl pr tosort).

(** [np.argsort(v, kind='quicksort')] *)
Definition aquicksort (v : list Z) : option (list nat) :=
  let num := length v in
  sort_range num (Z.log2 (Z.of_nat num) * 2) v (seq 0 num) 0 (num - 1).

(** The kernel as a function; [[]] stands for the runs that are left out. *)
Definition numpy_argsort (v : list Z) : list nat := default [] (aquicksort v).

(** *** Column reductions *)

(** [column.min()], [None] standing for NaT on an empty column *)
Definition col_min (col : list Z) : option Z :=
  match col with
  | [] => None
  | x :: xs => Some (foldr Z.min x xs)
  end.

Definition col_max (col : list Z) : option Z :=
  match col with
  | [] => None
  | x :: xs => Some (foldr Z.max x xs)
  end.

(** [column.nunique()] *)
Definition nunique `{EqDecision A} (col : list A) : nat :=
  length (remove_dups col).

(** [column.value_counts().to_dict()] as a mapping *)
Definition value_counts (col : list string) : gmap string nat :=
  foldr (λ v m, <[v := S (default 0%nat (m !! v))]> m) ∅ col.

(** [column.min().strftime('%Y-%m-%d')]: NaT cannot be formatted. *)
Definition strftime_ymd (ts : option Z) : result string :=
  match ts with
  | Some t => Ok (strftime t)
  | None => Raise (Exc ValueError "NaTType does not support strftime")
  end.

(** *** get_ai_analysis *)

(** The locals computed at the top of [get_ai_analysis]. *)
Record Stats := {
  start_date : string;
  end_date : string;
  total_days : Z;
  total_workouts : nat;
  days_active : nat;
  muscle_groups : gmap string nat;
  workout_types : gmap string nat;
  difficulty_levels : gmap string nat
}.

Section Code.
Context `{Env}.

Definition analysis_stats (df : list Row) : result Stats :=
  let dates := date <$> df in
  start ← strftime_ymd (col_min dates);
  stop ← strftime_ymd (col_max dates);
  (* on an empty column the first strftime has raised, so the NaT case of
     the difference is never evaluated *)
  let days := match col_max dates, col_min dates with
              | Some hi, Some lo => Timedelta_days (hi - lo) + 1
              | _, _ => 0
              end in
  Ok {| start_date := start;
        end_date := stop;
        total_days := days;
        total_workouts := length df;
        days_active := nunique dates;
        muscle_groups := value_counts (muscle_group <$> df);
        workout_types := value_counts (workout_type <$> df);
        difficulty_levels := value_counts (difficulty <$> df) |}.

Definition line (text : string) : string := spaces 8 +:+ text +:+ nl.

Definition analysis_prompt (st : Stats) (df : list Row) : string :=
  nl
  +:+ line ("As a fitness expert, analyze the workout history from "
            +:+ start_date st +:+ " to " +:+ end_date st
            +:+ " (" +:+ pretty (total_days st) +:+ " days):")
  +:+ line ("- Total exercises performed: " +:+ pretty (total_workouts st))
  +:+ line ("- Active days: " +:+ pretty (days_active st))
  +:+ line ("- Muscle groups targeted (with frequency): "
            +:+ counts_text (muscle_group <$> df))
  +:+ line ("- Types of workouts performed: "
            +:+ counts_text (workout_type <$> df))
  +:+ line ("- Difficulty levels: " +:+ counts_text (difficulty <$> df))
  +:+ nl
  +:+ line "Provide a brief analysis including:"
  +:+ line "1. Overall consistency and commitment"
  +:+ line "2. Balance of muscle groups (any imbalances?)"
  +:+ line "3. Progression in difficulty over this time period"
  +:+ line "4. Specific recommendations for improvement based on this time period"
  +:+ line "Keep the analysis concise but specific to this user's data."
  +:+ line "Consider the time period when making your analysis - if it's a short period, focus on initial progress. "
  +:+ line "If it's longer, focus on trends and progression."
  +:+ spaces 8.

Definition analysis_args (prompt : string) : CreateArgs :=
  {| model := "gpt-4o-mini";
     messages :=
       [ Msg system (Some "You are a knowledgeable fitness instructor analyzing workout data. While output report, address the user as you/your.");
         Msg user (Some prompt) ];
     functions := None;
     function_call := None;
     max_tokens := None;
     temperature := 1 # 10;
     stream := false |}.

Definition dquote : string := String (Ascii.ascii_of_nat 34) EmptyString.

(** The [try] block of [get_ai_analysis]. *)
Definition get_ai_analysis_try (df : list Row) : result string :=
  _ ← st_secrets "API_KEY";
  st ← analysis_stats df;
  let prompt := analysis_prompt st df in
  response ← create (analysis_args prompt);
  choice ← index0 (choices response);
  let period_context :=
    nl +:+ "Analysis Period: " +:+ start_date st +:+ " to " +:+ end_date st
    +:+ " (" +:+ pretty (total_days st) +:+ " days)" in
  match message_content choice with
  | Some analysis => Ok (period_context +:+ nl +:+ nl +:+ analysis)
  | None =>
      Raise (Exc TypeError ("can only concatenate str (not " +:+ dquote
                              +:+ "NoneType" +:+ dquote +:+ ") to str"))
  end.

Definition unable (e : exception) : string :=
  "Unable to generate AI analysis: " +:+ exc_str e.

Definition get_ai_analysis (df : list Row) : result string :=
  try_except (get_ai_analysis_try df) (λ e, Ok (unable e)).

(** *** The exercise-history table *)

(** [frame[frame[column] == value]] *)
Definition select_eq (column : Row → string) (value : string) (frame : list Row)
  : list Row :=
  filter (λ r, column r = value) frame.

(** pandas' [nargsort] for a column without NaT. *)
Definition nargsort (ascending : bool) (items : list Z) : list nat :=
  let idx := seq 0 (length items) in
  if ascending then (λ j, nth j idx 0%nat) <$> argsort items
  else
    let non_nans := reverse items in
    let non_nan_idx := reverse idx in
    reverse ((λ j, nth j non_nan_idx 0%nat) <$> argsort non_nans).

(** [frame.take(indexer)] *)
Fixpoint take_rows (frame : list Row) (indexer : list nat) : result (list Row) :=
  match indexer with
  | [] => Ok []
  | i :: rest =>
      match frame !! i with
      | Some r => rs ← take_rows frame rest; Ok (r :: rs)
      | None => Raise (Exc IndexError "indices are out-of-bounds")
      end
  end.

(** [frame.sort_values('date', ascending=False)] *)
Definition sort_values_date_desc (frame : list Row) : result (list Row) :=
  take_rows frame (nargsort false (date <$> frame)).

(** The variables of the page after the history block has run. *)
Record Page := {
  df : list Row;
  filtered_df : list Row;
  table : list Row
}.

Definition exercise_history
    (selected_type selected_muscle selected_difficulty : string)
    (df : list Row) : result Page :=
  let filtered_df := df in   (* df.copy() *)
  let filtered_df :=
    if decide (selected_type ≠ "All")
    then select_eq workout_type selected_type filtered_df else filtered_df in
  let filtered_df :=
    if decide (selected_muscle ≠ "All")
    then select_eq muscle_group selected_muscle filtered_df else filtered_df in
  let filtered_df :=
    if decide (selected_difficulty ≠ "All")
    then select_eq difficulty selected_difficulty filtered_df else filtered_df in
  shown ← sort_values_date_desc filtered_df;
  Ok {| df := df; filtered_df := filtered_df; table := shown |}.

(** *** Vocabulary of the properties *)

(** The request sent for the analysis of [df]. *)
Definition analysis_request (df : list Row) : result CreateArgs :=
  st ← analysis_stats df;
  Ok (analysis_args (analysis_prompt st df)).

End Code.

(** *** The page: metrics, charts, filter options *)

(** The three [st.metric] values: total workouts, unique exercises, days
    active. *)
Definition metrics (df : list Row) : nat * nat * nat :=
  (length df, nunique (exercise_name <$> df), nunique (date <$> df)).

(** [df.groupby('date').size().reset_index()]: one row per date, in
    ascending order of the dates, with the number of rows of that date. *)
Definition daily_activity (df : list Row) : list (Z * nat) :=
  (λ d, (d, length (filter (λ r, date r = d) df)))
    <$> merge_sort Z.le (remove_dups (date <$> df)).

(** The chart functions, each modelled by the table its chart draws;
    [None] is Python's [None]. *)
Definition create_activity_heatmap (df : option (list Row))
  : option (list (Z * nat)) :=
  match df with
  | None | Some [] => None
  | Some rows => Some (daily_activity rows)
  end.

Definition create_workout_type_chart (df : option (list Row))
  : option (gmap string nat) :=
  match df with
  | None | Some [] => None
  | Some rows => Some (value_counts (workout_type <$> rows))
  end.

Definition create_muscle_group_chart (df : option (list Row))
  : option (gmap string nat) :=
  match df with
  | None | Some [] => None
  | Some rows => Some (value_counts (muscle_group <$> rows))
  end.

(** [sorted(...)] of strings: ascending by code points. *)
Definition sorted (l : list string) : list string :=
  merge_sort (λ a b, String.leb a b) l.

(** [['All'] + sorted(df[column].unique().tolist())] *)
Definition select_options (column : list string) : list string :=
  "All" :: sorted (remove_dups column).

(** The sum of the counts of a frequency table. *)
Definition total_count (table : gmap string nat) : nat :=
  sum_list (map_to_list table).*2.

(** *** Frames as objects

    A variable of the page holds a reference to a frame object.  The
    operations of the history block ([copy], the boolean selection, the
    column selection and [sort_values] without [inplace]) each build a new
    object and leave the one they read as it is. *)

Record Objects := {
  frames : gmap nat (list Row);   (* the live frame objects *)
  next_ref : nat                  (* the reference of the next object *)
}.

(** A new object holding [rows]. *)
Definition new_frame (rows : list Row) (o : Objects) : nat * Objects :=
  (next_ref o,
   {| frames := <[next_ref o := rows]> (frames o);
      next_ref := S (next_ref o) |}).

(** The rows of the object a variable refers to. *)
Definition rows_of (o : Objects) (ref : nat) : list Row :=
  default [] (frames o !! ref).

(** [filtered_df = filtered_df[filtered_df[column] == selected]], made
    only for a selection other than "All". *)
Definition narrow (column : Row → string) (selected : string)
    (filtered_df : nat) (o : Objects) : nat * Objects :=
  if decide (selected ≠ "All")
  then new_frame (select_eq column selected (rows_of o filtered_df)) o
  else (filtered_df, o).

(** The variables of the page after the history block, as references. *)
Record PageRefs := {
  df_ref : nat;
  filtered_df_ref : nat;
  table_ref : nat
}.

Section Block.
Context `{Env}.

(** The history block over the object store: [df] is the reference held
    by the variable [df]. *)
Definition history_block
    (selected_type selected_muscle selected_difficulty : string)
    (df : nat) (o : Objects) : result (PageRefs * Objects) :=
  let '(filtered_df, o) := new_frame (rows_of o df) o in   (* df.copy() *)
  let '(filtered_df, o) := narrow workout_type selected_type filtered_df o in
  let '(filtered_df, o) := narrow muscle_group selected_muscle filtered_df o in
  let '(filtered_df, o) := narrow difficulty selected_difficulty filtered_df o in
  (* filtered_df[display_columns] *)
  let '(columns, o) := new_frame (rows_of o filtered_df) o in
  shown ← sort_values_date_desc (rows_of o columns);
  let '(table, o) := new_frame shown o in
  Ok ({| df_ref := df; filtered_df_ref := filtered_df; table_ref := table |}, o).

End Block.

(** Every live object has a reference below the next one. *)
Definition well_formed (o : Objects) : Prop :=
  ∀ ref, is_Some (frames o !! ref) → (ref < next_ref o)%nat.

(** [o'] has every object of [o], unchanged. *)
Definition keeps (o o' : Objects) : Prop :=
  ∀ ref rows, frames o !! ref = Some rows → frames o' !! ref = Some rows.

(** A store holding one frame, referred to by [0]. *)
Definition one_frame (rows : list Row) : Objects :=
  {| frames := {[ 0%nat := rows ]}; next_ref := 1 |}.

(** How often [v] occurs in a column. *)
Definition occurrences (v : string) (col : list string) : nat :=
  length (filter (λ x, x = v) col).

(** The entry of a frequency table for [v]: its count, and no entry when
    it does not occur. *)
Definition frequency (v : string) (col : list string) : option nat :=
  if decide (occurrences v col = 0)%nat then None else Some (occurrences v col).

(** A criterion of the history table: ["All"] accepts every value. *)
Definition accepts (selected value : string) : Prop :=
  selected = "All" ∨ value = selected.

Global Instance accepts_dec selected value : Decision (accepts selected value).
Proof. unfold accepts. apply _. Defined.

(** *** Sample data and environments *)

Definition entry (day : Z) (exercise muscle kind level : string) : LogEntry :=
  {| log_date := day;
     log_exercise_name := exercise;
     log_muscle_group := muscle;
     log_workout_type := kind;
     log_difficulty := level;
     log_first_set := "20/10";
     log_second_set := "20/10";
     log_third_set := "20/8" |}.

Definition two_day_log : list LogEntry :=
  [ entry (days_from_civil 2024 1 1) "Bench Press" "chest" "Strength" "Beginner";
    entry (days_from_civil 2024 1 3) "Barbell Row" "back" "Strength" "Beginner" ].

(** Entries on January 1, 2 and 5, several of them on the same day. *)
Definition five_day_log : list LogEntry :=
  [ entry (days_from_civil 2024 1 2) "Squat" "legs" "Strength" "Intermediate";
    entry (days_from_civil 2024 1 1) "Bench Press" "chest" "Strength" "Beginner";
    entry (days_from_civil 2024 1 5) "Running" "legs" "Cardio" "Beginner";
    entry (days_from_civil 2024 1 1) "Push Up" "chest" "Strength" "Beginner";
    entry (days_from_civil 2024 1 5) "Rowing" "back" "Cardio" "Intermediate" ].

(** Pairs of a value and its position, compared by value. *)
Definition by_value : relation (Z * nat) := λ a b, a.1 ≤ b.1.

Global Instance by_value_dec a b : Decision (by_value a b).
Proof. unfold by_value. apply _. Defined.

(** A sort kernel that meets the contract: a merge sort of the values
    paired with their positions. *)
Definition merge_argsort (vs : list Z) : list nat :=
  (merge_sort by_value (zip vs (seq 0 (length vs)))).*2.

(** The completion service cannot be reached. *)
Definition service_down : Env :=
  {| st_secrets := λ _, Ok "sk-test";
     counts_text := λ col, "{" +:+ join ", " (remove_dups col) +:+ "}";
     create := λ _, Raise (Exc APIError "Connection error.");
     argsort := merge_argsort |}.

(** The completion service answers with one sentence. *)
Definition analyst : Env :=
  {| st_secrets := λ _, Ok "sk-test";
     counts_text := λ col, "{" +:+ join ", " (remove_dups col) +:+ "}";
     create := λ _,
       Ok {| choices := [ {| message_content := Some "You are consistent." |} ] |};
     argsort := merge_argsort |}.

(** The page over numpy's quicksort kernel. *)
Definition numpy_page : Env :=
  {| st_secrets := λ _, Ok "sk-test";
     counts_text := λ col, "{" +:+ join ", " (remove_dups col) +:+ "}";
     create := λ _, Raise (Exc APIError "Connection error.");
     argsort := numpy_argsort |}.

(** Eighteen exercises logged on one day. *)
Definition busy_day : list Row :=
  frame_of
    ((λ exercise,
        entry (days_from_civil 2024 1 1) exercise "legs" "Strength" "Beginner")
       <$> [ "Squat"; "Front Squat"; "Leg Press"; "Lunge"; "Step Up";
             "Leg Extension"; "Leg Curl"; "Calf Raise"; "Hip Thrust";
             "Glute Bridge"; "Deadlift"; "Romanian Deadlift"; "Good Morning";
             "Box Jump"; "Wall Sit"; "Sumo Squat"; "Hack Squat";
             "Split Squat" ]).

Definition cardio_log : list Row :=
  frame_of
    [ entry (days_from_civil 2024 1 1) "Running" "legs" "Cardio" "Beginner";
      entry (days_from_civil 2024 1 1) "Rowing" "back" "Cardio" "Beginner";
      entry (days_from_civil 2024 1 4) "Squat" "legs" "Strength" "Beginner" ].

End Analysis.

(** * Properties of the chat page *)

(** ** Strings *)

Lemma append_cons c a b : String c a +:+ b = String c (a +:+ b).
Proof. reflexivity. Qed.

Lemma slice_to_length n s :
  String.length (slice_to n s) = (n `min` String.length s)%nat.
Proof.
  revert s. induction n as [|n IH]; intros [|c s]; simpl; try done.
  by rewrite IH.
Qed.

Lemma slice_to_prefix n s : ∃ rest, s = slice_to n s +:+ rest.
Proof.
  revert s. induction n as [|n IH]; intros s.
  - exists s. by destruct s.
  - destruct s as [|c s]; [by exists EmptyString|].
    destruct (IH s) as [rest Hrest]. exists rest. simpl.
    rewrite append_cons. by f_equal.
Qed.

Lemma slice_to_app n shown rest :
  String.length shown = (n `min` String.length (shown +:+ rest))%nat →
  slice_to n (shown +:+ rest) = shown.
Proof.
  revert n. induction shown as [|c shown IH]; intros [|n] Hlen; try done.
  - destruct rest; [done|]. simpl in Hlen. lia.
  - rewrite append_cons in Hlen |- *. simpl in Hlen |- *.
    f_equal. apply IH. lia.
Qed.

Lemma lower_examples :
  lower "Biceps" = "biceps" ∧ lower "LOWER BACK" = "lower back"
  ∧ lower "none" = "none".
Proof. by split_and!. Qed.

Lemma lower_length s : String.length (lower s) = String.length s.
Proof. induction s as [|c s IH]; simpl; [done|]. by rewrite IH. Qed.

Section WorkoutProperties.
Import Workout.
Context `{Workout.Env}.

Ltac run :=
  unfold mbind, mret, M_bind, M_ret, result_bind, result_ret, bind, ret, rbind,
    lift, draw, append_message, try_except_if, try_except; simpl.

(** ** Exercise list *)

(** C4. The exercise list put into the prompt has [min 3 n] lines for a
    lookup of [n] records, hence at most 3: line [i] is built from record
    [i] of the lookup, and shows the record's name, then the first 100
    characters of its instructions (all of them when there are fewer),
    then the marker [...]. *)
Theorem exercise_list_capped (exercises : list Exercise) :
  length (exercise_lines exercises) = (3 `min` length exercises)%nat
  ∧ (length (exercise_lines exercises) ≤ 3)%nat
  ∧ (∀ (i : nat) line,
       exercise_lines exercises !! i = Some line ↔
       (i < 3)%nat ∧ ∃ ex shown rest,
         exercises !! i = Some ex
         ∧ instructions ex = shown +:+ rest
         ∧ String.length shown = (100 `min` String.length (instructions ex))%nat
         ∧ line = "• " +:+ name ex +:+ ": " +:+ shown +:+ "...")
  ∧ exercise_info exercises = join nl (exercise_lines exercises).
Proof.
  unfold exercise_lines. split_and!.
  - by rewrite length_fmap, length_take.
  - rewrite length_fmap, length_take. lia.
  - intros i line. rewrite list_lookup_fmap. split.
    + intros Hl. destruct (take 3 exercises !! i) as [ex|] eqn:Hex; [|done].
      apply lookup_take_Some in Hex as [Hex Hi]. split; [done|].
      destruct (slice_to_prefix 100 (instructions ex)) as [rest Hrest].
      exists ex, (slice_to 100 (instructions ex)), rest.
      split_and!; [done|done|apply slice_to_length|]. by inversion Hl.
    + intros (Hi & ex & shown & rest & Hex & Hsplit & Hlen & ->).
      rewrite lookup_take_lt by done. rewrite Hex. simpl. f_equal.
      unfold exercise_line. do 3 f_equal.
      rewrite Hsplit in Hlen |- *. by rewrite slice_to_app.
  - done.
Qed.

(** ** Muscle-group extraction *)

(** C5. Whenever the extraction fails (the completion call raises, or its
    response is malformed), [extract_muscle_group] returns exactly
    ["none"]; it does not raise. *)
Theorem extract_failure_is_none (text : string) :
  extraction_fails text → extract_muscle_group text = Ok "none".
Proof.
  unfold extraction_fails, extract_muscle_group, try_except.
  unfold mbind, result_bind, rbind.
  destruct (create (extract_args text)) as [response|e]; [|done].
  destruct (choices response) as [|choice rest]; [done|].
  simpl. by intros ->.
Qed.

(** C6, as the code has it. [extract_muscle_group] never raises; its
    result is the model's reply in lower case, whatever the reply is
    (it is neither stripped nor checked against a list of labels, so it can
    be empty or any text), and ["none"] when the call or the reading of
    the response fails. *)
Theorem extract_is_lowered_reply (text : string) :
  extract_muscle_group text =
  Ok (match create (extract_args text) with
      | Ok response =>
          match choices response with
          | choice :: _ =>
              match message_content choice with
              | Some reply => lower reply
              | None => "none"
              end
          | [] => "none"
          end
      | Raise _ => "none"
      end).
Proof.
  unfold extract_muscle_group, try_except, mbind, result_bind, rbind.
  destruct (create (extract_args text)) as [response|e]; [|done].
  destruct (choices response) as [|choice rest]; [done|].
  simpl. by destruct (message_content choice).
Qed.

(** ** Exercise lookup *)

(** A 4xx or 5xx status always makes [raise_for_status] raise, and what it
    raises is a [RequestException]. *)
Lemma raise_for_status_error (r : Response) :
  400 ≤ status_code r < 600 →
  ∃ e, raise_for_status r = Raise e ∧ is_RequestException e = true.
Proof.
  intros Hs. unfold raise_for_status.
  repeat case_match; eauto; lia.
Qed.

(** C9, as the code has it. The lookup sends the lower-cased muscle group
    with the API-key header; when the transport raises a
    [RequestException], or the response has a 4xx or 5xx status, it shows
    the error and returns the empty list, without raising. *)
Theorem lookup_failure_is_empty (muscle : string) (w : World) :
  (∃ e, lookup_request muscle = Raise e ∧ is_RequestException e = true)
  ∨ (∃ r, lookup_request muscle = Ok r ∧ 400 ≤ status_code r < 600) →
  ∃ e,
    (lookup_request muscle = Raise e
     ∨ ∃ r, lookup_request muscle = Ok r ∧ raise_for_status r = Raise e)
    ∧ get_exercise_info muscle w =
        (Ok [], report w (st_error ("Error fetching exercise data: "
                                      +:+ exc_str e))).
Proof.
  unfold lookup_request, get_exercise_info, exercises_url.
  intros [(e & Hget & He)|(r & Hget & Hstatus)].
  - exists e. split; [by left|]. run. rewrite Hget. simpl. by rewrite He.
  - destruct (raise_for_status_error r Hstatus) as (e & Hraise & He).
    exists e. split; [right; eauto|]. run. rewrite Hget. simpl.
    rewrite Hraise. simpl. by rewrite He.
Qed.

(** ** Branch selection *)

(** C1. The prompt depends on the extracted muscle group and on the lookup
    in three ways: a group other than ["none"] with a non-empty lookup gives
    system, user and an assistant message listing the exercises; a group
    other than ["none"] with an empty lookup gives system, user and the
    assistant message that nothing specific was found; ["none"] gives
    system and user only, and no lookup is made. *)
Theorem branch_selection (prompt muscle_group : string) (w : World) :
  (muscle_group ≠ "none" →
   ∀ ex rest w', get_exercise_info muscle_group w = (Ok (ex :: rest), w') →
     compose_messages prompt muscle_group w =
       (Ok [ Msg system (Some system_found);
             Msg user (Some prompt);
             Msg assistant
               (Some ("I found some exercises for " +:+ muscle_group
                      +:+ ". Here are the details:" +:+ nl
                      +:+ exercise_info (ex :: rest))) ], w'))
  ∧ (muscle_group ≠ "none" →
     ∀ w', get_exercise_info muscle_group w = (Ok [], w') →
       compose_messages prompt muscle_group w =
         (Ok [ Msg system (Some (system_plain 16));
               Msg user (Some prompt);
               Msg assistant (Some (no_match_text muscle_group)) ], w'))
  ∧ (muscle_group = "none" →
     compose_messages prompt muscle_group w =
       (Ok [ Msg system (Some (system_plain 12)); Msg user (Some prompt) ], w)).
Proof.
  unfold compose_messages. split_and!.
  - intros Hne ex rest w' Hlookup. rewrite decide_True by done.
    run. by rewrite Hlookup.
  - intros Hne w' Hlookup. rewrite decide_True by done.
    run. by rewrite Hlookup.
  - intros ->. by rewrite decide_False by (by intros []).
Qed.

(** ** Failure of the chat completion *)

Lemma draws_only_refl w : draws_only w w.
Proof. split; [done|]. exists []. by rewrite app_nil_r. Qed.

Lemma draws_only_trans w1 w2 w3 :
  draws_only w1 w2 → draws_only w2 w3 → draws_only w1 w3.
Proof.
  intros [Hm1 [d1 Hd1]] [Hm2 [d2 Hd2]]. split; [congruence|].
  exists (d1 ++ d2). by rewrite Hd2, Hd1, app_assoc.
Qed.

Lemma draws_only_report w ev : draws_only w (report w ev).
Proof. split; [done|]. by exists [ev]. Qed.

Lemma consume_draws_only cs full w :
  ∃ r w', consume cs full w = (r, w') ∧ draws_only w w'.
Proof.
  revert full w. induction cs as [|chunk cs IH]; intros full w; simpl.
  - eexists _, _. split; [done|]. apply draws_only_refl.
  - run. destruct (chunk_choices chunk) as [|[text|] rest]; simpl.
    + eexists _, _. split; [done|]. apply draws_only_refl.
    + destruct (IH (full +:+ text)
                  (report w (placeholder_markdown ((full +:+ text) +:+ "▌"))))
        as (r & w' & Hrun & Hw').
      unfold report in Hrun. rewrite Hrun.
      eexists _, _. split; [done|].
      eapply draws_only_trans; [apply draws_only_report|done].
    + apply IH.
Qed.

(** Reading the chunks ends with the exception of the first chunk that has
    no choice, if there is one, and draws only. *)
Lemma consume_failure cs full w e :
  chunk_failure cs = Some e →
  ∃ w', consume cs full w = (Raise e, w') ∧ draws_only w w'.
Proof.
  revert full w. induction cs as [|chunk cs IH]; intros full w; simpl; [done|].
  run. destruct (chunk_choices chunk) as [|[text|] rest]; simpl.
  - intros [= <-]. eexists. split; [done|]. apply draws_only_refl.
  - intros Hfail.
    destruct (IH (full +:+ text)
                (report w (placeholder_markdown ((full +:+ text) +:+ "▌")))
                Hfail) as (w' & Hrun & Hw').
    unfold report in Hrun. rewrite Hrun. eexists. split; [done|].
    eapply draws_only_trans; [apply draws_only_report|done].
  - apply IH.
Qed.

Lemma consume_completes cs full w :
  chunk_failure cs = None →
  ∃ text w', consume cs full w = (Ok text, w') ∧ draws_only w w'.
Proof.
  revert full w. induction cs as [|chunk cs IH]; intros full w; simpl.
  - intros _. eexists _, _. split; [done|]. apply draws_only_refl.
  - run. destruct (chunk_choices chunk) as [|[text|] rest]; simpl; [done|..].
    + intros Hfail.
      destruct (IH (full +:+ text)
                  (report w (placeholder_markdown ((full +:+ text) +:+ "▌")))
                  Hfail) as (r & w' & Hrun & Hw').
      unfold report in Hrun. rewrite Hrun. eexists _, _. split; [done|].
      eapply draws_only_trans; [apply draws_only_report|done].
    + apply IH.
Qed.

(** When the completion fails with [e], [generate_chat_response] returns
    the apology, having shown the text of [e] last, and leaves the
    transcript as it was. *)
Lemma generate_fallback msgs w e :
  completion_failure msgs = Some e →
  ∃ w',
    generate_chat_response msgs true w =
      (Ok (Some apology),
       report w' (st_error ("Error generating response: " +:+ exc_str e)))
    ∧ draws_only w w'.
Proof.
  unfold completion_failure, generate_chat_response. run.
  destruct (create_stream (chat_args msgs true)) as [s|e0]; simpl.
  - destruct (chunk_failure (chunks s)) as [e0|] eqn:Hchunks.
    + intros [= ->].
      destruct (consume_failure (chunks s) EmptyString (report w st_empty) e
                  Hchunks) as (w' & Hrun & Hw').
      unfold report in Hrun. rewrite Hrun. simpl.
      eexists. split; [done|].
      eapply draws_only_trans; [apply draws_only_report|done].
    + intros Hint.
      destruct (consume_completes (chunks s) EmptyString (report w st_empty)
                  Hchunks) as (text & w' & Hrun & Hw').
      unfold report in Hrun. rewrite Hrun, Hint. simpl.
      eexists. split; [done|].
      eapply draws_only_trans; [apply draws_only_report|done].
  - intros [= ->]. eexists. split; [done|]. apply draws_only_refl.
Qed.

Lemma get_exercise_info_draws_only muscle w :
  ∃ r w', get_exercise_info muscle w = (r, w') ∧ draws_only w w'.
Proof.
  unfold get_exercise_info. run.
  match goal with |- context [requests_get ?u ?h ?p] =>
    destruct (requests_get u h p) as [r|e] end; simpl.
  - destruct (raise_for_status r) as [[]|e]; simpl.
    + destruct (json r) as [v|e]; simpl.
      * eexists _, _. split; [done|]. apply draws_only_refl.
      * destruct (is_RequestException e);
          (eexists _, _; split; [done|]);
          [apply draws_only_report|apply draws_only_refl].
    + destruct (is_RequestException e);
        (eexists _, _; split; [done|]);
        [apply draws_only_report|apply draws_only_refl].
  - destruct (is_RequestException e);
      (eexists _, _; split; [done|]);
      [apply draws_only_report|apply draws_only_refl].
Qed.

Lemma compose_messages_draws_only prompt muscle_group w :
  ∃ r w', compose_messages prompt muscle_group w = (r, w') ∧ draws_only w w'.
Proof.
  unfold compose_messages. case_decide.
  - destruct (get_exercise_info_draws_only muscle_group w)
      as (r & w' & Hrun & Hw').
    run. rewrite Hrun. destruct r as [[|ex rest]|e]; eauto.
  - eexists _, _. split; [done|]. apply draws_only_refl.
Qed.

(** After [prepare_turn] the transcript is the old one and the user turn. *)
Lemma prepare_turn_transcript prompt w r w1 :
  prepare_turn prompt w = (r, w1) →
  session_messages w1 = session_messages w ++ [Msg user (Some prompt)].
Proof.
  unfold prepare_turn. run.
  destruct (extract_muscle_group prompt) as [mg|e] eqn:Hmg; simpl.
  - match goal with |- context [compose_messages prompt mg ?w0] =>
      destruct (compose_messages_draws_only prompt mg w0)
        as (r' & w' & Hrun & [Hm _]) end.
    rewrite Hrun. destruct r'; intros [= <- <-]; by rewrite Hm.
  - by intros [= <- <-].
Qed.

(** C7. When the chat completion fails with an exception [e] (the call
    raises it, or the stream raises it while it is read),
    [generate_chat_response] returns the fixed apology instead of raising,
    and the last thing it shows is the error message with the text of [e];
    the chat turn then ends normally, and the transcript is the old one
    followed by the user turn and an assistant turn holding the apology. *)
Theorem chat_failure_fallback (prompt : string) (w w1 : World)
    (msgs : list ChatMessage) (e : exception) :
  prepare_turn prompt w = (Ok msgs, w1) →
  completion_failure msgs = Some e →
  (∀ w0, ∃ w0',
     generate_chat_response msgs true w0 =
       (Ok (Some apology),
        report w0' (st_error ("Error generating response: " +:+ exc_str e)))
     ∧ draws_only w0 w0')
  ∧ ∃ w2,
      on_chat_input prompt w = (Ok tt, w2)
      ∧ session_messages w2 =
          session_messages w
          ++ [Msg user (Some prompt); Msg assistant (Some apology)]
      ∧ last (screen w2) =
          Some (st_error ("Error generating response: " +:+ exc_str e)).
Proof.
  intros Hprep Hfail. split; [intros w0; by apply generate_fallback|].
  pose proof (prepare_turn_transcript _ _ _ _ Hprep) as Hm1.
  unfold on_chat_input. run. rewrite Hprep. simpl.
  match goal with |- context [generate_chat_response msgs true ?w0] =>
    destruct (generate_fallback msgs w0 e Hfail) as (w' & Hgen & [Hm _]) end.
  rewrite Hgen. simpl. eexists. split; [done|]. simpl. split.
  - rewrite Hm. simpl. rewrite Hm1. by rewrite <- app_assoc.
  - by rewrite last_snoc.
Qed.

End WorkoutProperties.

(** ** The chat page on sample environments *)

Lemma exercise_list_of_one :
  Workout.exercise_lines [Workout.hammer_curl] =
    ["• Incline Hammer Curls: Seat yourself on an incline bench with a dumbbell in each hand...."].
Proof. reflexivity. Qed.

Lemma exercise_list_of_four :
  Workout.exercise_lines
    [ Workout.concentration_curl; Workout.hammer_curl;
      Workout.hammer_curl; Workout.concentration_curl ] =
    [ "• Concentration curl: Sit down on a flat bench with one dumbbell in front of you between your legs. Your legs should be sp...";
      "• Incline Hammer Curls: Seat yourself on an incline bench with a dumbbell in each hand....";
      "• Incline Hammer Curls: Seat yourself on an incline bench with a dumbbell in each hand...." ].
Proof. reflexivity. Qed.

Lemma extract_failure_is_none_offline :
  Workout.extract_muscle_group (H := Workout.offline) "my arms are sore"
  = Ok "none".
Proof.
  apply (@extract_failure_is_none Workout.offline "my arms are sore").
  exact I.
Defined.

(** C6 as stated fails: the model may reply with the empty text, and the
    empty text is what the extraction returns. *)
Lemma extract_can_be_empty :
  Workout.extract_muscle_group (H := Workout.silent_model) "hello" = Ok EmptyString
  ∧ ¬ (∀ (E : Workout.Env) (text : string),
         Workout.extract_muscle_group (H := E) text ≠ Ok EmptyString).
Proof.
  split; [reflexivity|].
  intros Hclaim. by apply (Hclaim Workout.silent_model "hello").
Qed.

Lemma lookup_failure_is_empty_offline :
  ∃ e,
    (Workout.lookup_request (H := Workout.offline) "Biceps" = Raise e
     ∨ ∃ r, Workout.lookup_request (H := Workout.offline) "Biceps" = Ok r
            ∧ Workout.raise_for_status r = Raise e)
    ∧ Workout.get_exercise_info (H := Workout.offline) "Biceps" Workout.blank =
        (Ok [], Workout.report Workout.blank
                  (Workout.st_error ("Error fetching exercise data: "
                                       +:+ exc_str e))).
Proof.
  apply (@lookup_failure_is_empty Workout.offline "Biceps" Workout.blank).
  left. exists (Exc ConnectionError "Connection refused").
  split; reflexivity.
Defined.

Lemma lookup_not_found_is_empty :
  Workout.get_exercise_info (H := Workout.missing_catalogue) "Biceps"
    Workout.blank =
  (Ok [], Workout.report Workout.blank
            (Workout.st_error
               "Error fetching exercise data: 404 Client Error: Not Found for url: https://api.api-ninjas.com/v1/exercises")).
Proof. vm_compute. reflexivity. Qed.

(** C9 as stated fails: a response whose status is 300 is not a 2xx
    response, yet the lookup returns its records and shows no error. *)
Lemma lookup_passes_status_300 :
  Workout.lookup_request (H := Workout.undecided_catalogue) "Biceps"
    = Ok Workout.multiple_choices
  ∧ ¬ (200 ≤ Workout.status_code Workout.multiple_choices < 300)
  ∧ Workout.get_exercise_info (H := Workout.undecided_catalogue) "Biceps"
      Workout.blank
    = (Ok [Workout.hammer_curl], Workout.blank).
Proof.
  split_and!; [reflexivity| |reflexivity].
  simpl. lia.
Qed.

Lemma branch_selection_samples :
  Workout.compose_messages (H := Workout.biceps_known)
      "How do I train my biceps?" "biceps" Workout.blank =
    (Ok [ Msg system (Some (Workout.system_found (H := Workout.biceps_known)));
          Msg user (Some "How do I train my biceps?");
          Msg assistant
            (Some ("I found some exercises for biceps. Here are the details:"
                   +:+ nl
                   +:+ "• Incline Hammer Curls: Seat yourself on an incline bench with a dumbbell in each hand....")) ],
     Workout.blank)
  ∧ Workout.compose_messages (H := Workout.biceps_unknown)
      "How do I train my biceps?" "biceps" Workout.blank =
    (Ok [ Msg system (Some (Workout.system_plain (H := Workout.biceps_unknown) 16));
          Msg user (Some "How do I train my biceps?");
          Msg assistant
            (Some "While I couldn't find specific exercises for biceps in my database, I can provide general fitness advice based on our available equipment.") ],
     Workout.blank)
  ∧ Workout.compose_messages (H := Workout.biceps_unknown)
      "Hello there" "none" Workout.blank =
    (Ok [ Msg system (Some (Workout.system_plain (H := Workout.biceps_unknown) 12));
          Msg user (Some "Hello there") ],
     Workout.blank).
Proof.
  split_and!.
  - exact (proj1 (@branch_selection Workout.biceps_known
                    "How do I train my biceps?" "biceps" Workout.blank)
             ltac:(discriminate) Workout.hammer_curl [] Workout.blank eq_refl).
  - exact (proj1 (proj2 (@branch_selection Workout.biceps_unknown
                    "How do I train my biceps?" "biceps" Workout.blank))
             ltac:(discriminate) Workout.blank eq_refl).
  - exact (proj2 (proj2 (@branch_selection Workout.biceps_unknown
                    "Hello there" "none" Workout.blank)) eq_refl).
Defined.

Lemma chat_failure_fallback_sample :
  ∃ w2,
    Workout.on_chat_input (H := Workout.biceps_unknown)
      "How do I train my biceps?" Workout.blank = (Ok tt, w2)
    ∧ Workout.session_messages w2 =
        Workout.session_messages Workout.blank
        ++ [ Msg user (Some "How do I train my biceps?");
             Msg assistant (Some Workout.apology) ]
    ∧ last (Workout.screen w2) =
        Some (Workout.st_error
                ("Error generating response: "
                 +:+ exc_str (Exc APIError "Connection error."))).
Proof.
  refine (proj2 (@chat_failure_fallback Workout.biceps_unknown
                   "How do I train my biceps?" Workout.blank _ _
                   (Exc APIError "Connection error.") eq_refl _)).
  reflexivity.
Defined.

(** The same failure seen from [generate_chat_response]: the piece that
    arrived stays on the screen, then the error is shown. *)
Lemma chat_failure_screen :
  Workout.generate_chat_response (H := Workout.biceps_unknown) [] true
    Workout.blank
  = (Ok (Some Workout.apology),
     {| Workout.session_messages := [];
        Workout.screen :=
          [ Workout.st_empty;
            Workout.placeholder_markdown "Try▌";
            Workout.st_error "Error generating response: Connection error." ] |}).
Proof. reflexivity. Qed.

(** * Properties of the analysis page *)

(** ** Column reductions *)

Lemma col_min_spec x xs :
  foldr Z.min x xs ∈ x :: xs ∧ ∀ d, d ∈ x :: xs → foldr Z.min x xs ≤ d.
Proof.
  induction xs as [|y ys [Hin Hle]]; simpl.
  - split; [left|]. intros d ->%list_elem_of_singleton. lia.
  - split.
    + destruct (Z.min_spec y (foldr Z.min x ys)) as [[_ ->]|[_ ->]].
      * right. left.
      * apply elem_of_cons in Hin as [->|Hin]; [left|]. by do 2 right.
    + intros d [->|[->|Hd]%elem_of_cons]%elem_of_cons.
      * pose proof (Hle x ltac:(left)). lia.
      * lia.
      * pose proof (Hle d ltac:(by right)). lia.
Qed.

Lemma col_max_spec x xs :
  foldr Z.max x xs ∈ x :: xs ∧ ∀ d, d ∈ x :: xs → d ≤ foldr Z.max x xs.
Proof.
  induction xs as [|y ys [Hin Hle]]; simpl.
  - split; [left|]. intros d ->%list_elem_of_singleton. lia.
  - split.
    + destruct (Z.max_spec y (foldr Z.max x ys)) as [[_ ->]|[_ ->]].
      * apply elem_of_cons in Hin as [->|Hin]; [left|]. by do 2 right.
      * right. left.
    + intros d [->|[->|Hd]%elem_of_cons]%elem_of_cons.
      * pose proof (Hle x ltac:(left)). lia.
      * lia.
      * pose proof (Hle d ltac:(by right)). lia.
Qed.

Lemma to_datetime_mono a b :
  a ≤ b → Analysis.to_datetime a ≤ Analysis.to_datetime b.
Proof. unfold Analysis.to_datetime, Analysis.ns_per_day. lia. Qed.

Lemma min_to_datetime x xs :
  foldr Z.min (Analysis.to_datetime x) (Analysis.to_datetime <$> xs)
  = Analysis.to_datetime (foldr Z.min x xs).
Proof.
  induction xs as [|y ys IH]; [done|]. rewrite fmap_cons. cbn [foldr].
  rewrite IH. destruct (Z.min_spec y (foldr Z.min x ys)) as [[Hlt ->]|[Hle ->]].
  - apply Z.min_l, to_datetime_mono. lia.
  - by apply Z.min_r, to_datetime_mono.
Qed.

Lemma max_to_datetime x xs :
  foldr Z.max (Analysis.to_datetime x) (Analysis.to_datetime <$> xs)
  = Analysis.to_datetime (foldr Z.max x xs).
Proof.
  induction xs as [|y ys IH]; [done|]. rewrite fmap_cons. cbn [foldr].
  rewrite IH. destruct (Z.max_spec y (foldr Z.max x ys)) as [[Hlt ->]|[Hle ->]].
  - apply Z.max_r, to_datetime_mono. lia.
  - by apply Z.max_l, to_datetime_mono.
Qed.

(** Midnights that are [n] days apart differ by a Timedelta of [n] days. *)
Lemma days_between lo hi :
  Analysis.Timedelta_days (Analysis.to_datetime hi - Analysis.to_datetime lo)
  = hi - lo.
Proof.
  unfold Analysis.Timedelta_days, Analysis.to_datetime.
  rewrite <- Z.mul_sub_distr_r. by apply Z.div_mul.
Qed.

Global Instance to_datetime_inj : Inj (=) (=) Analysis.to_datetime.
Proof.
  intros a b. unfold Analysis.to_datetime, Analysis.ns_per_day. lia.
Qed.

Lemma nunique_distinct `{Countable A} (col : list A) :
  Analysis.nunique col = size (list_to_set col : gset A).
Proof.
  unfold Analysis.nunique.
  rewrite <- (size_list_to_set (C := gset A) (remove_dups col))
    by apply NoDup_remove_dups.
  f_equal. apply set_eq. intros x.
  by rewrite !elem_of_list_to_set, elem_of_remove_dups.
Qed.

Lemma nunique_fmap `{Countable A, Countable B} (f : A → B) `{!Inj (=) (=) f}
    (col : list A) :
  Analysis.nunique (f <$> col) = Analysis.nunique col.
Proof.
  unfold Analysis.nunique.
  rewrite <- (length_fmap f (remove_dups col)).
  apply Permutation_length, NoDup_Permutation.
  - apply NoDup_remove_dups.
  - apply NoDup_fmap; [done|apply NoDup_remove_dups].
  - intros y. rewrite elem_of_remove_dups, !list_elem_of_fmap.
    by setoid_rewrite elem_of_remove_dups.
Qed.

Lemma value_counts_frequency v col :
  Analysis.value_counts col !! v = Analysis.frequency v col.
Proof.
  unfold Analysis.frequency, Analysis.occurrences.
  induction col as [|x col IH]; simpl; [done|].
  rewrite filter_cons. destruct (decide (x = v)) as [->|Hne].
  - rewrite lookup_insert_eq, IH. simpl.
    case_decide as Hzero; simpl; [by rewrite Hzero|done].
  - by rewrite lookup_insert_ne.
Qed.

(** ** Reading a frame through an indexer *)

Lemma take_rows_omap (frame : list Analysis.Row) (indexer : list nat) :
  Forall (λ i, (i < length frame)%nat) indexer →
  Analysis.take_rows frame indexer = Ok (omap (λ i, frame !! i) indexer).
Proof.
  induction 1 as [|i rest Hi _ IH]; simpl; [done|].
  destruct (lookup_lt_is_Some_2 frame i Hi) as [r Hr].
  rewrite Hr, IH. done.
Qed.

Lemma omap_lookup_seq {A} (pre l : list A) :
  omap (λ i, (pre ++ l) !! i) (seq (length pre) (length l)) = l.
Proof.
  revert pre. induction l as [|x l IH]; intros pre; simpl; [done|].
  rewrite list_lookup_middle by done. f_equal.
  specialize (IH (pre ++ [x])).
  rewrite length_app, <- app_assoc in IH. simpl in IH.
  by rewrite Nat.add_1_r in IH.
Qed.

Lemma omap_lookup_nth {A} (d : A) (vs : list A) (indexer : list nat) :
  Forall (λ i, (i < length vs)%nat) indexer →
  omap (λ i, vs !! i) indexer = (λ i, nth i vs d) <$> indexer.
Proof.
  induction 1 as [|i rest Hi _ IH]; [done|].
  destruct (lookup_lt_is_Some_2 vs i Hi) as [v Hv].
  rewrite fmap_cons, (nth_lookup_Some _ _ _ _ Hv), <- IH.
  simpl. by rewrite Hv.
Qed.

Lemma fmap_omap_lookup {A B} (f : A → B) (l : list A) (indexer : list nat) :
  f <$> omap (λ i, l !! i) indexer = omap (λ i, (f <$> l) !! i) indexer.
Proof.
  induction indexer as [|i rest IH]; [done|].
  cbn [omap list_omap]. rewrite list_lookup_fmap.
  destruct (l !! i); simpl; by rewrite <- IH.
Qed.

Lemma nth_seq_self {A} (d : A) (l : list A) :
  (λ j, nth j l d) <$> seq 0 (length l) = l.
Proof.
  rewrite <- omap_lookup_nth.
  - apply (omap_lookup_seq [] l).
  - apply Forall_forall. intros i [_ Hi]%elem_of_seq. lia.
Qed.

(** Position [j] of the reversed index counts from the end. *)
Lemma nth_reverse_seq (n j : nat) :
  (j < n)%nat → nth j (reverse (seq 0 n)) 0%nat = (n - S j)%nat.
Proof.
  intros Hj. apply nth_lookup_Some.
  rewrite reverse_lookup by (by rewrite length_seq).
  rewrite length_seq. apply lookup_seq. lia.
Qed.

Lemma nth_reverse (items : list Z) (j : nat) :
  (j < length items)%nat →
  nth (length items - S j) items 0 = nth j (reverse items) 0.
Proof.
  intros Hj. rewrite !nth_lookup. by rewrite reverse_lookup.
Qed.

(** ** Sort kernels *)

Global Instance by_value_total : Total Analysis.by_value.
Proof. intros a b. unfold Analysis.by_value. lia. Qed.

Lemma zip_seq_positions (pre vs : list Z) :
  Forall (λ p : Z * nat, nth p.2 (pre ++ vs) 0 = p.1)
    (zip vs (seq (length pre) (length vs))).
Proof.
  revert pre. induction vs as [|v vs IH]; intros pre; simpl; [done|].
  constructor.
  - simpl. apply nth_lookup_Some. by apply list_lookup_middle.
  - specialize (IH (pre ++ [v])).
    rewrite length_app, <- app_assoc in IH. simpl in IH.
    by rewrite Nat.add_1_r in IH.
Qed.

(** Sorting the pairs of value and position by value, from whatever
    arrangement [pre] of them, meets the contract of [argsort]. *)
Lemma pair_sort_contract (pre : list (Z * nat) → list (Z * nat)) :
  (∀ l, pre l ≡ₚ l) →
  Analysis.argsort_contract
    (λ vs, (merge_sort Analysis.by_value (pre (zip vs (seq 0 (length vs))))).*2).
Proof.
  intros Hpre vs.
  set (m := merge_sort Analysis.by_value (pre (zip vs (seq 0 (length vs))))).
  assert (m ≡ₚ zip vs (seq 0 (length vs))) as Hm.
  { unfold m. by rewrite merge_sort_Permutation, Hpre. }
  split.
  - rewrite Hm. by rewrite snd_zip by (by rewrite length_seq).
  - assert ((λ i, nth i vs 0) <$> m.*2 = m.*1) as ->.
    { rewrite <- list_fmap_compose. apply list_fmap_ext.
      intros i p Hp. simpl.
      pose proof (zip_seq_positions [] vs) as Hall. simpl in Hall.
      rewrite <- Hm in Hall. rewrite Forall_forall in Hall.
      apply Hall. by eapply list_elem_of_lookup_2. }
    apply (Sorted_fmap fst Analysis.by_value); [done|].
    apply Sorted_merge_sort. apply _.
Qed.

Lemma merge_argsort_contract : Analysis.argsort_contract Analysis.merge_argsort.
Proof. apply (pair_sort_contract (λ l, l)). done. Qed.

Section AnalysisProperties.
Import Analysis.
Context `{Analysis.Env}.

(** ** The history table *)

Lemma criterion_filter (column : Row → string) (selected : string)
    (frame : list Row) :
  (if decide (selected ≠ "All") then select_eq column selected frame else frame)
  = filter (λ r, accepts selected (column r)) frame.
Proof.
  unfold select_eq, accepts. case_decide as Hsel.
  - apply list_filter_iff. intros r. split; [by right|by intros [?|?]].
  - induction frame as [|r frame IH]; [done|].
    rewrite filter_cons_True by (by left). by rewrite <- IH.
Qed.

(** What the descending [nargsort] returns over a kernel that meets the
    contract: every position once, reading the values from the last of the
    kernel's order to the first. *)
Lemma nargsort_descending (items : list Z) :
  argsort_contract argsort →
  nargsort false items ≡ₚ seq 0 (length items)
  ∧ (λ i, nth i items 0) <$> nargsort false items
    = reverse ((λ j, nth j (reverse items) 0) <$> argsort (reverse items)).
Proof.
  intros Hkernel. unfold nargsort.
  destruct (Hkernel (reverse items)) as [Hperm _].
  rewrite length_reverse in Hperm. split.
  - rewrite reverse_Permutation, Hperm.
    pose proof (nth_seq_self 0%nat (reverse (seq 0 (length items)))) as Hself.
    rewrite length_reverse, length_seq in Hself.
    by rewrite Hself, reverse_Permutation.
  - rewrite fmap_reverse, <- list_fmap_compose. f_equal.
    apply list_fmap_ext. intros k j Hj. simpl.
    assert (j < length items)%nat as Hlt.
    { apply list_elem_of_lookup_2 in Hj. rewrite Hperm in Hj.
      apply elem_of_seq in Hj. lia. }
    rewrite nth_reverse_seq by done. by apply nth_reverse.
Qed.

Lemma sort_values_date_desc_sorted (frame : list Row) :
  argsort_contract argsort →
  ∃ rows,
    sort_values_date_desc frame = Ok rows
    ∧ rows ≡ₚ frame
    ∧ Sorted (flip Z.le) (date <$> rows).
Proof.
  intros Hkernel. unfold sort_values_date_desc.
  destruct (nargsort_descending (date <$> frame) Hkernel) as [Hperm Hdates].
  rewrite length_fmap in Hperm.
  assert (Forall (λ i, (i < length frame)%nat)
            (nargsort false (date <$> frame))) as Hvalid.
  { apply Forall_forall. intros i Hi. rewrite Hperm in Hi.
    apply elem_of_seq in Hi. lia. }
  rewrite take_rows_omap by done. eexists. split; [done|]. split.
  - rewrite Hperm. pose proof (omap_lookup_seq [] frame) as Hall.
    simpl in Hall. by rewrite Hall.
  - rewrite fmap_omap_lookup, (omap_lookup_nth 0), Hdates
      by (by rewrite length_fmap).
    apply Sorted_reverse. apply Hkernel.
Qed.

(** *** The object store *)

Lemma keeps_trans (o1 o2 o3 : Objects) : keeps o1 o2 → keeps o2 o3 → keeps o1 o3.
Proof. intros H12 H23 ref rows Href. by apply H23, H12. Qed.

Lemma new_frame_fresh (rows : list Row) (o o' : Objects) (ref : nat) :
  new_frame rows o = (ref, o') →
  well_formed o →
  well_formed o' ∧ keeps o o' ∧ frames o' !! ref = Some rows.
Proof.
  unfold new_frame. intros [= <- <-] Hwf. simpl. split_and!.
  - intros ref. simpl. rewrite lookup_insert. case_decide; [lia|].
    intros Hsome%Hwf. lia.
  - intros ref rows' Href. simpl. rewrite lookup_insert_ne; [done|].
    intros <-. pose proof (Hwf (next_ref o) ltac:(by eexists)). lia.
  - by rewrite lookup_insert_eq.
Qed.

Lemma narrow_fresh (column : Row → string) (selected : string)
    (rows : list Row) (o o' : Objects) (ref ref' : nat) :
  narrow column selected ref o = (ref', o') →
  well_formed o →
  frames o !! ref = Some rows →
  well_formed o' ∧ keeps o o'
  ∧ frames o' !! ref' = Some (filter (λ r, accepts selected (column r)) rows).
Proof.
  unfold narrow. intros Hrun Hwf Href.
  pose proof (criterion_filter column selected rows) as Hfilter.
  case_decide as Hsel.
  - unfold rows_of in Hrun. rewrite Href in Hrun. simpl in Hrun.
    rewrite <- Hfilter. by apply (new_frame_fresh _ o).
  - injection Hrun as <- <-. rewrite <- Hfilter. split_and!; try done.
    by intros ? ? ?.
Qed.

(** C3, as the code has it. Over a sort kernel that meets its contract, the
    history block builds new frame objects only: every frame that existed
    before it, the source frame among them, has the same rows after it.
    [filtered_df] holds exactly the rows of the source that satisfy every
    given criterion (["All"] accepts every row), in their original order,
    and the table shown holds the same rows ordered by date, latest first.
    The order of rows with equal dates is the kernel's and is not fixed
    here. *)
Theorem history_table (selected_type selected_muscle selected_difficulty : string)
    (df : nat) (df0 : list Row) (o : Objects) :
  argsort_contract argsort →
  well_formed o →
  frames o !! df = Some df0 →
  ∃ refs o' kept shown,
    history_block selected_type selected_muscle selected_difficulty df o
      = Ok (refs, o')
    ∧ keeps o o'
    ∧ frames o' !! df_ref refs = Some df0
    ∧ frames o' !! filtered_df_ref refs = Some kept
    ∧ kept =
        filter (λ r, accepts selected_type (workout_type r)
                     ∧ accepts selected_muscle (muscle_group r)
                     ∧ accepts selected_difficulty (difficulty r)) df0
    ∧ frames o' !! table_ref refs = Some shown
    ∧ shown ≡ₚ kept
    ∧ Sorted (flip Z.le) (date <$> shown)
    ∧ (∀ r, r ∈ shown ↔
            r ∈ df0
            ∧ accepts selected_type (workout_type r)
            ∧ accepts selected_muscle (muscle_group r)
            ∧ accepts selected_difficulty (difficulty r)).
Proof.
  intros Hkernel Hwf Hdf. unfold history_block.
  unfold rows_of at 1. rewrite Hdf. simpl default.
  destruct (new_frame df0 o) as [f0 o0] eqn:Hcopy.
  destruct (new_frame_fresh _ _ _ _ Hcopy Hwf) as (Hwf0 & Hk0 & Hf0).
  destruct (narrow workout_type selected_type f0 o0) as [f1 o1] eqn:Htype.
  destruct (narrow_fresh _ _ _ _ _ _ _ Htype Hwf0 Hf0) as (Hwf1 & Hk1 & Hf1).
  destruct (narrow muscle_group selected_muscle f1 o1) as [f2 o2] eqn:Hmuscle.
  destruct (narrow_fresh _ _ _ _ _ _ _ Hmuscle Hwf1 Hf1) as (Hwf2 & Hk2 & Hf2).
  destruct (narrow difficulty selected_difficulty f2 o2) as [f3 o3] eqn:Hdiff.
  destruct (narrow_fresh _ _ _ _ _ _ _ Hdiff Hwf2 Hf2) as (Hwf3 & Hk3 & Hf3).
  rewrite !list_filter_filter in Hf3.
  match type of Hf3 with _ = Some ?rows => set (kept := rows) in * end.
  unfold rows_of at 1. rewrite Hf3. simpl default.
  destruct (new_frame kept o3) as [f4 o4] eqn:Hcols.
  destruct (new_frame_fresh _ _ _ _ Hcols Hwf3) as (Hwf4 & Hk4 & Hf4).
  unfold rows_of. rewrite Hf4. simpl default.
  destruct (sort_values_date_desc_sorted kept Hkernel)
    as (shown & -> & Hperm & Hsorted).
  unfold mbind, result_bind, rbind.
  destruct (new_frame shown o4) as [f5 o5] eqn:Hshown.
  destruct (new_frame_fresh _ _ _ _ Hshown Hwf4) as (Hwf5 & Hk5 & Hf5).
  assert (keeps o o5) as Hkeeps.
  { eapply keeps_trans; [exact Hk0|]. eapply keeps_trans; [exact Hk1|].
    eapply keeps_trans; [exact Hk2|]. eapply keeps_trans; [exact Hk3|].
    eapply keeps_trans; [exact Hk4|]. exact Hk5. }
  assert (kept = filter (λ r, accepts selected_type (workout_type r)
                     ∧ accepts selected_muscle (muscle_group r)
                     ∧ accepts selected_difficulty (difficulty r)) df0)
    as Hkept.
  { unfold kept. apply list_filter_iff. intros r. tauto. }
  exists {| df_ref := df; filtered_df_ref := f3; table_ref := f5 |}, o5,
    kept, shown.
  cbn [df_ref filtered_df_ref table_ref]. split_and!; try done.
  - by apply Hkeeps.
  - by apply Hk5, Hk4.
  - intros r. rewrite Hperm, Hkept, list_elem_of_filter. tauto.
Qed.

(** The block over the object store and the block read as a function of
    the source rows give the same rows. *)
Lemma history_block_rows
    (selected_type selected_muscle selected_difficulty : string)
    (df : nat) (df0 : list Row) (o : Objects) :
  well_formed o →
  frames o !! df = Some df0 →
  match exercise_history selected_type selected_muscle selected_difficulty df0
  with
  | Ok page =>
      ∃ refs o',
        history_block selected_type selected_muscle selected_difficulty df o
          = Ok (refs, o')
        ∧ rows_of o' (df_ref refs) = Analysis.df page
        ∧ rows_of o' (filtered_df_ref refs) = filtered_df page
        ∧ rows_of o' (table_ref refs) = table page
  | Raise e =>
      history_block selected_type selected_muscle selected_difficulty df o
        = Raise e
  end.
Proof.
  intros Hwf Hdf. unfold exercise_history. cbv zeta.
  rewrite !criterion_filter.
  match goal with
  | |- context [sort_values_date_desc ?rows] => set (kept := rows)
  end.
  assert (∃ f3 o4,
    (∀ shown, ∃ f5 o5,
       history_block selected_type selected_muscle selected_difficulty df o
         = (shown ← sort_values_date_desc kept;
            let '(table, o) := new_frame shown o4 in
            Ok ({| df_ref := df; filtered_df_ref := f3; table_ref := table |},
                o))
       ∧ new_frame shown o4 = (f5, o5)
       ∧ frames o5 !! df = Some df0
       ∧ frames o5 !! f3 = Some kept
       ∧ frames o5 !! f5 = Some shown)) as (f3 & o4 & Hrun).
  { unfold history_block.
    unfold rows_of at 1. rewrite Hdf. simpl default.
    destruct (new_frame df0 o) as [f0 o0] eqn:Hcopy.
    destruct (new_frame_fresh _ _ _ _ Hcopy Hwf) as (Hwf0 & Hk0 & Hf0).
    destruct (narrow workout_type selected_type f0 o0) as [f1 o1] eqn:Htype.
    destruct (narrow_fresh _ _ _ _ _ _ _ Htype Hwf0 Hf0) as (Hwf1 & Hk1 & Hf1).
    destruct (narrow muscle_group selected_muscle f1 o1)
      as [f2 o2] eqn:Hmuscle.
    destruct (narrow_fresh _ _ _ _ _ _ _ Hmuscle Hwf1 Hf1)
      as (Hwf2 & Hk2 & Hf2).
    destruct (narrow difficulty selected_difficulty f2 o2)
      as [f3 o3] eqn:Hdiff.
    destruct (narrow_fresh _ _ _ _ _ _ _ Hdiff Hwf2 Hf2) as (Hwf3 & Hk3 & Hf3).
    fold kept in Hf3.
    unfold rows_of at 1. rewrite Hf3. simpl default.
    destruct (new_frame kept o3) as [f4 o4] eqn:Hcols.
    destruct (new_frame_fresh _ _ _ _ Hcols Hwf3) as (Hwf4 & Hk4 & Hf4).
    unfold rows_of. rewrite Hf4. simpl default.
    exists f3, o4. intros shown.
    destruct (new_frame shown o4) as [f5 o5] eqn:Hshown.
    destruct (new_frame_fresh _ _ _ _ Hshown Hwf4) as (Hwf5 & Hk5 & Hf5).
    exists f5, o5. split_and!; try done.
    - by apply Hk5, Hk4, Hk3, Hk2, Hk1, Hk0.
    - by apply Hk5, Hk4. }
  unfold mbind, result_bind, rbind in *.
  destruct (sort_values_date_desc kept) as [shown|e].
  - destruct (Hrun shown) as (f5 & o5 & -> & Hnew & Hdf5 & Hf3 & Hf5).
    rewrite Hnew. eexists _, _. split; [reflexivity|].
    cbn [df_ref filtered_df_ref table_ref Analysis.df filtered_df table].
    unfold rows_of. by rewrite Hdf5, Hf3, Hf5.
  - by destruct (Hrun []) as (_ & _ & -> & _).
Qed.

(** ** Summary statistics *)

(** C2. For a log with at least one entry the statistics are computed
    without error: [total_days] is the inclusive span from the earliest to
    the latest date of the log, [days_active] the number of distinct
    dates, [total_workouts] the number of entries, and each frequency table
    maps a value to the number of its occurrences (values that do not occur
    have no entry).  The log of 2024-01-01 (chest) and 2024-01-03 (back)
    has 3 days, 2 active days and the table chest 1, back 1; a log that
    spans January 1 to 5 has 5 days, however its entries are spread. *)
Theorem summary_statistics (e : LogEntry) (entries : list LogEntry) :
  let log := e :: entries in
  let days := log_date <$> log in
  (∃ st,
     analysis_stats (frame_of log) = Ok st
     ∧ (∃ lo hi, lo ∈ days ∧ hi ∈ days ∧ (∀ d, d ∈ days → lo ≤ d ≤ hi)
                 ∧ total_days st = hi - lo + 1)
     ∧ days_active st = size (list_to_set days : gset Z)
     ∧ total_workouts st = length log
     ∧ (∀ v, muscle_groups st !! v = frequency v (log_muscle_group <$> log))
     ∧ (∀ v, workout_types st !! v = frequency v (log_workout_type <$> log))
     ∧ (∀ v, difficulty_levels st !! v = frequency v (log_difficulty <$> log)))
  ∧ (∃ st,
       analysis_stats (frame_of two_day_log) = Ok st
       ∧ total_days st = 3
       ∧ days_active st = 2%nat
       ∧ muscle_groups st = {[ "chest" := 1%nat; "back" := 1%nat ]})
  ∧ (∃ st,
       analysis_stats (frame_of five_day_log) = Ok st
       ∧ total_days st = 5
       ∧ total_workouts st = 5%nat).
Proof.
  intros log days. split_and!.
  - unfold analysis_stats.
    assert (date <$> frame_of log = to_datetime <$> days) as ->.
    { unfold frame_of, days. rewrite <- !list_fmap_compose. done. }
    unfold days, log. rewrite !fmap_cons. cbn [col_min col_max strftime_ymd].
    rewrite min_to_datetime, max_to_datetime, days_between.
    eexists. split; [reflexivity|]. cbn [total_days days_active
      total_workouts muscle_groups workout_types difficulty_levels].
    split_and!.
    + destruct (col_min_spec (log_date e) (log_date <$> entries)) as [Hlo Hmin].
      destruct (col_max_spec (log_date e) (log_date <$> entries)) as [Hhi Hmax].
      eexists _, _. split_and!; [exact Hlo|exact Hhi| |reflexivity].
      intros d Hd. split; [by apply Hmin|by apply Hmax].
    + rewrite <- !fmap_cons, nunique_fmap by apply _. apply nunique_distinct.
    + unfold frame_of. by rewrite length_fmap.
    + intros v. rewrite value_counts_frequency. f_equal.
      unfold frame_of. by rewrite <- !list_fmap_compose.
    + intros v. rewrite value_counts_frequency. f_equal.
      unfold frame_of. by rewrite <- !list_fmap_compose.
    + intros v. rewrite value_counts_frequency. f_equal.
      unfold frame_of. by rewrite <- !list_fmap_compose.
  - eexists. split; [reflexivity|]. split_and!; [reflexivity..|].
    apply map_eq. intros v. cbn [muscle_groups].
    rewrite value_counts_frequency.
    destruct (decide (v = "chest")) as [->|Hc]; [done|].
    destruct (decide (v = "back")) as [->|Hb]; [done|].
    rewrite lookup_insert_ne by done. rewrite lookup_singleton_ne by done.
    unfold frequency, occurrences. simpl.
    rewrite !filter_cons, filter_nil.
    rewrite (decide_False (P := "chest" = v)) by congruence.
    by rewrite (decide_False (P := "back" = v)) by congruence.
  - eexists. split; [reflexivity|]. split; reflexivity.
Qed.

(** ** Failure of the analysis *)

(** C8. For a frame with at least one row, if the completion request made
    for its analysis raises, [get_ai_analysis] returns the text
    "Unable to generate AI analysis: " followed by the text of the error;
    it neither raises nor returns an analysis. *)
Theorem analysis_failure_text (r : Row) (rows : list Row)
    (key : string) (args : CreateArgs) (e : exception) :
  st_secrets "API_KEY" = Ok key →
  analysis_request (r :: rows) = Ok args →
  create args = Raise e →
  get_ai_analysis (r :: rows)
  = Ok ("Unable to generate AI analysis: " +:+ exc_str e).
Proof.
  unfold get_ai_analysis, get_ai_analysis_try, analysis_request, try_except.
  unfold mbind, result_bind, rbind. intros -> Hreq Hcreate.
  destruct (analysis_stats (r :: rows)) as [st|e0]; [|done].
  injection Hreq as <-. by rewrite Hcreate.
Qed.

(** The request exists for every frame with a row. *)
Lemma analysis_request_defined (r : Row) (rows : list Row) :
  ∃ args, analysis_request (r :: rows) = Ok args.
Proof. unfold analysis_request, analysis_stats. simpl. eauto. Qed.

(** C10. [get_ai_analysis] returns a text for every frame, the empty one
    included, and never raises: what the [try] block returns is returned,
    and what it raises is turned into "Unable to generate AI analysis: "
    followed by the text of the error.  On the empty frame the block
    always raises (with the secret at hand, the NaT date cannot be
    formatted). *)
Theorem analysis_total (df : list Row) :
  (∃ text,
     get_ai_analysis df = Ok text
     ∧ text = match get_ai_analysis_try df with
              | Ok analysis => analysis
              | Raise e => "Unable to generate AI analysis: " +:+ exc_str e
              end)
  ∧ ∃ e,
      get_ai_analysis_try [] = Raise e
      ∧ get_ai_analysis [] = Ok ("Unable to generate AI analysis: " +:+ exc_str e)
      ∧ e = match st_secrets "API_KEY" with
            | Ok _ => Exc ValueError "NaTType does not support strftime"
            | Raise e0 => e0
            end.
Proof.
  unfold get_ai_analysis, try_except. split.
  - destruct (get_ai_analysis_try df); eauto.
  - unfold get_ai_analysis_try, mbind, result_bind, rbind.
    destruct (st_secrets "API_KEY"); simpl; eauto.
Qed.

End AnalysisProperties.

(** ** The analysis page on sample environments *)

Lemma one_frame_well_formed (rows : list Analysis.Row) :
  Analysis.well_formed (Analysis.one_frame rows).
Proof.
  intros ref [rows' Href]. unfold Analysis.one_frame in *. simpl in *.
  apply lookup_singleton_Some in Href as [<- _]. lia.
Qed.

Lemma history_table_cardio :
  ∃ refs o' kept shown,
    Analysis.history_block (H := Analysis.service_down)
      "Cardio" "All" "All" 0 (Analysis.one_frame Analysis.cardio_log)
      = Ok (refs, o')
    ∧ Analysis.keeps (Analysis.one_frame Analysis.cardio_log) o'
    ∧ Analysis.frames o' !! Analysis.df_ref refs = Some Analysis.cardio_log
    ∧ Analysis.frames o' !! Analysis.filtered_df_ref refs = Some kept
    ∧ kept =
        filter (λ r, Analysis.accepts "Cardio" (Analysis.workout_type r)
                     ∧ Analysis.accepts "All" (Analysis.muscle_group r)
                     ∧ Analysis.accepts "All" (Analysis.difficulty r))
          Analysis.cardio_log
    ∧ Analysis.frames o' !! Analysis.table_ref refs = Some shown
    ∧ shown ≡ₚ kept
    ∧ Sorted (flip Z.le) (Analysis.date <$> shown)
    ∧ (∀ r, r ∈ shown ↔
            r ∈ Analysis.cardio_log
            ∧ Analysis.accepts "Cardio" (Analysis.workout_type r)
            ∧ Analysis.accepts "All" (Analysis.muscle_group r)
            ∧ Analysis.accepts "All" (Analysis.difficulty r)).
Proof.
  apply (@history_table Analysis.service_down "Cardio" "All" "All" 0%nat
           Analysis.cardio_log (Analysis.one_frame Analysis.cardio_log)).
  - exact merge_argsort_contract.
  - apply one_frame_well_formed.
  - reflexivity.
Defined.

(** The names shown in the table, in order. *)
Lemma history_names_cardio :
  (match Analysis.history_block (H := Analysis.numpy_page)
           "Cardio" "All" "All" 0 (Analysis.one_frame Analysis.cardio_log) with
   | Ok (refs, o') =>
       Analysis.exercise_name <$> Analysis.rows_of o' (Analysis.table_ref refs)
   | Raise _ => []
   end) = ["Running"; "Rowing"].
Proof. vm_compute. reflexivity. Qed.

(** What the table shows for the eighteen exercises of one day, with
    nothing filtered, over numpy's quicksort kernel. *)
Lemma history_names_busy_day :
  (match Analysis.history_block (H := Analysis.numpy_page)
           "All" "All" "All" 0 (Analysis.one_frame Analysis.busy_day) with
   | Ok (refs, o') =>
       Analysis.exercise_name <$> Analysis.rows_of o' (Analysis.table_ref refs)
   | Raise _ => []
   end)
  = [ "Squat"; "Front Squat"; "Hack Squat"; "Sumo Squat"; "Wall Sit";
      "Box Jump"; "Good Morning"; "Romanian Deadlift"; "Deadlift";
      "Glute Bridge"; "Hip Thrust"; "Calf Raise"; "Leg Curl";
      "Leg Extension"; "Step Up"; "Lunge"; "Leg Press"; "Split Squat" ].
Proof. vm_compute. reflexivity. Qed.

(** C3 as stated fails in its tie rule.  Eighteen exercises are logged on
    one day; with nothing filtered, the table built over numpy's quicksort
    kernel shows eighteen rows, but not in the order of the log. *)
Lemma history_table_reorders_ties :
  length Analysis.busy_day = 18%nat
  ∧ (∀ r, r ∈ Analysis.busy_day →
          Analysis.date r
          = Analysis.to_datetime (Analysis.days_from_civil 2024 1 1))
  ∧ ∃ refs o',
      Analysis.history_block (H := Analysis.numpy_page)
        "All" "All" "All" 0 (Analysis.one_frame Analysis.busy_day)
        = Ok (refs, o')
      ∧ length (Analysis.rows_of o' (Analysis.table_ref refs)) = 18%nat
      ∧ Analysis.exercise_name <$> Analysis.rows_of o' (Analysis.table_ref refs)
        ≠ Analysis.exercise_name <$> Analysis.busy_day.
Proof.
  split; [reflexivity|]. split.
  { intros r Hr. apply list_elem_of_In in Hr. vm_compute in Hr.
    repeat (destruct Hr as [<-|Hr]; [reflexivity|]). done. }
  pose proof history_names_busy_day as Hnames.
  destruct (Analysis.history_block (H := Analysis.numpy_page)
              "All" "All" "All" 0 (Analysis.one_frame Analysis.busy_day))
    as [[refs o']|e]; [|done].
  exists refs, o'. split; [done|]. split.
  - rewrite <- (length_fmap Analysis.exercise_name), Hnames. reflexivity.
  - rewrite Hnames. vm_compute. discriminate.
Qed.

Lemma analysis_failure_text_two_days :
  Analysis.get_ai_analysis (H := Analysis.service_down)
    (Analysis.frame_of Analysis.two_day_log)
  = Ok "Unable to generate AI analysis: Connection error.".
Proof.
  eapply (@analysis_failure_text Analysis.service_down _ _ "sk-test" _
            (Exc APIError "Connection error.")); reflexivity.
Defined.

Lemma analysis_of_empty_frame :
  Analysis.get_ai_analysis (H := Analysis.service_down) []
  = Ok "Unable to generate AI analysis: NaTType does not support strftime".
Proof. reflexivity. Qed.

Lemma analysis_of_two_days :
  Analysis.get_ai_analysis (H := Analysis.analyst)
    (Analysis.frame_of Analysis.two_day_log)
  = Ok (nl +:+ "Analysis Period: 2024-01-01 to 2024-01-03 (3 days)"
        +:+ nl +:+ nl +:+ "You are consistent.").
Proof. vm_compute. reflexivity. Qed.

(** * Further properties of the chat page *)

Lemma lower_char_idempotent c : lower_char (lower_char c) = lower_char c.
Proof. by destruct c as [[] [] [] [] [] [] [] []]. Qed.

Lemma lower_idempotent s : lower (lower s) = lower s.
Proof.
  induction s as [|c s IH]; simpl; [done|].
  by rewrite lower_char_idempotent, IH.
Qed.

Lemma append_assoc (a b c : string) : (a +:+ b) +:+ c = a +:+ (b +:+ c).
Proof. induction a as [|x a IH]; [done|]. rewrite !append_cons. by f_equal. Qed.

Lemma append_empty_r (a : string) : a +:+ EmptyString = a.
Proof. induction a as [|x a IH]; [done|]. rewrite append_cons. by f_equal. Qed.

(** Every text gathered on the way is the beginning of the whole text. *)
Lemma running_prefix shown pieces p :
  p ∈ Workout.running shown pieces →
  ∃ rest, shown +:+ Workout.whole pieces = p +:+ rest.
Proof.
  revert shown. induction pieces as [|piece pieces IH]; intros shown; simpl.
  - by intros ?%elem_of_nil.
  - intros [->|Hin]%elem_of_cons.
    + exists (Workout.whole pieces). by rewrite append_assoc.
    + destruct (IH _ Hin) as [rest Hrest]. exists rest.
      by rewrite <- Hrest, append_assoc.
Qed.

Section WorkoutFurther.
Import Workout.
Context `{Workout.Env}.

Ltac run :=
  unfold mbind, mret, M_bind, M_ret, result_bind, result_ret, bind, ret, rbind,
    lift, draw, append_message, try_except_if, try_except; simpl.

(** ** Equipment catalogue *)

(** X1. The purpose of an equipment is looked up without regard to case:
    two names that agree in lower case get the same answer. *)
Theorem purpose_ignores_case (a b : string) :
  lower a = lower b → get_equipment_purpose a = get_equipment_purpose b.
Proof.
  intros Hab. unfold get_equipment_purpose.
  induction equipment_data as [|item rest IH]; simpl; [done|].
  by rewrite Hab, IH.
Qed.

(** X2. A name that matches no catalogue entry (in lower case) gets the
    text "Purpose not found"; nothing is raised. *)
Theorem purpose_of_unknown (equipment_name : string) :
  Forall (λ item, lower (Equipment_Name item) ≠ lower equipment_name)
    equipment_data →
  get_equipment_purpose equipment_name = "Purpose not found".
Proof.
  unfold get_equipment_purpose.
  induction 1 as [|item rest Hne _ IH]; simpl; [done|].
  by rewrite decide_False.
Qed.

(** X3. When several entries match, the purpose returned is that of the
    first one in catalogue order. *)
Theorem purpose_of_first_match (equipment_name : string)
    (before after : list EquipmentItem) (item : EquipmentItem) :
  equipment_data = before ++ item :: after →
  Forall (λ other, lower (Equipment_Name other) ≠ lower equipment_name) before →
  lower (Equipment_Name item) = lower equipment_name →
  get_equipment_purpose equipment_name = Purpose item.
Proof.
  unfold get_equipment_purpose. intros -> Hbefore Hitem.
  induction Hbefore as [|other before Hne _ IH]; simpl.
  - by rewrite decide_True.
  - by rewrite decide_False.
Qed.


(** ** Exercise lookup *)

(** X5. A response whose status is not 4xx or 5xx and whose body is a JSON
    list is returned as it is: nothing is shown and nothing else changes. *)
Theorem lookup_success (muscle : string) (w : World) (r : Response)
    (records : list Exercise) :
  lookup_request muscle = Ok r →
  ¬ (400 ≤ status_code r < 600) →
  body_json r = Some records →
  get_exercise_info muscle w = (Ok records, w).
Proof.
  unfold lookup_request, get_exercise_info, exercises_url.
  intros Hget Hstatus Hbody. run. rewrite Hget. simpl.
  unfold raise_for_status, json.
  repeat case_match; simplify_eq; try done; lia.
Qed.

(** X6. A response that passes the status check but whose body is not
    JSON counts as a failure: the error is shown and the empty list
    returned. *)
Theorem lookup_undecodable (muscle : string) (w : World) (r : Response) :
  lookup_request muscle = Ok r →
  ¬ (400 ≤ status_code r < 600) →
  body_json r = None →
  ∃ msg,
    get_exercise_info muscle w =
      (Ok [], report w (st_error ("Error fetching exercise data: " +:+ msg))).
Proof.
  unfold lookup_request, get_exercise_info, exercises_url.
  intros Hget Hstatus Hbody. run. rewrite Hget. simpl.
  unfold raise_for_status, json. rewrite Hbody.
  repeat case_match; simplify_eq; try lia; eauto.
Qed.

(** X7. Only request exceptions are handled: an exception of another
    class raised by the transport leaves [get_exercise_info] as it came,
    with nothing shown. *)
Theorem lookup_propagates_other (muscle : string) (w : World) (e : exception) :
  lookup_request muscle = Raise e →
  is_RequestException e = false →
  get_exercise_info muscle w = (Raise e, w).
Proof.
  unfold lookup_request, get_exercise_info, exercises_url.
  intros Hget He. run. rewrite Hget. simpl. by rewrite He.
Qed.

(** Whatever [get_exercise_info] raises is not a request exception. *)
Lemma lookup_raises_only_other muscle w e w' :
  get_exercise_info muscle w = (Raise e, w') → is_RequestException e = false.
Proof.
  unfold get_exercise_info. run.
  match goal with |- context [requests_get ?u ?h ?p] =>
    destruct (requests_get u h p) as [r|e0] end; simpl.
  - destruct (raise_for_status r) as [[]|e0]; simpl.
    + destruct (json r) as [v|e0]; simpl; [done|].
      destruct (is_RequestException e0) eqn:He0; [done|]. by intros [= <- <-].
    + destruct (is_RequestException e0) eqn:He0; [done|]. by intros [= <- <-].
  - destruct (is_RequestException e0) eqn:He0; [done|]. by intros [= <- <-].
Qed.

(** What the lookup returns does not depend on the world it runs in. *)
Lemma lookup_result_fixed muscle w w' :
  (get_exercise_info muscle w).1 = (get_exercise_info muscle w').1.
Proof.
  unfold get_exercise_info. run.
  match goal with |- context [requests_get ?u ?h ?p] =>
    destruct (requests_get u h p) as [r|e0] end; simpl.
  - destruct (raise_for_status r) as [[]|e0]; simpl.
    + destruct (json r) as [v|e0]; simpl; [done|].
      by destruct (is_RequestException e0).
    + by destruct (is_RequestException e0).
  - by destruct (is_RequestException e0).
Qed.

(** The extraction always returns. *)
Lemma extract_is_total text : ∃ mg, extract_muscle_group text = Ok mg.
Proof.
  unfold extract_muscle_group, try_except, mbind, result_bind, rbind.
  destruct (create (extract_args text)) as [response|e]; [|by eauto].
  destruct (choices response) as [|choice rest]; simpl; [by eauto|].
  destruct (message_content choice); eauto.
Qed.

(** X8. What the extraction returns is already in lower case, so the
    lookup sends it to the catalogue unchanged. *)
Theorem extracted_group_is_sent_unchanged (text muscle_group : string) :
  extract_muscle_group text = Ok muscle_group →
  lower muscle_group = muscle_group
  ∧ lookup_request muscle_group =
      requests_get exercises_url [("X-Api-Key", API_NINJAS_KEY)]
        [("muscle", muscle_group)].
Proof.
  intros Hex.
  assert (lower muscle_group = muscle_group) as Hlow.
  { revert Hex. unfold extract_muscle_group, try_except.
    unfold mbind, result_bind, rbind.
    destruct (create (extract_args text)) as [response|e];
      [|by intros [= <-]].
    destruct (choices response) as [|choice rest]; simpl; [by intros [= <-]|].
    destruct (message_content choice); intros [= <-]; [|done].
    apply lower_idempotent. }
  split; [done|]. unfold lookup_request, exercises_url. by rewrite Hlow.
Qed.

(** ** The chat completion *)

(** Reading well-formed chunks never raises: the text gathered grows by
    each piece, and each growth is drawn with the cursor after it. *)
Lemma consume_pieces (cs : list Chunk) (shown : string) (w : World) :
  Forall (λ chunk, chunk_choices chunk ≠ []) cs →
  consume cs shown w =
    (Ok (shown +:+ whole (deltas cs)),
     {| session_messages := session_messages w;
        screen := screen w
                  ++ ((λ p, placeholder_markdown (p +:+ cursor))
                        <$> running shown (deltas cs)) |}).
Proof.
  intros Hwf. revert shown w.
  induction Hwf as [|chunk cs Hchunk _ IH]; intros shown w; simpl.
  - rewrite append_empty_r, app_nil_r. by destruct w.
  - run. destruct (chunk_choices chunk) as [|[piece|] others]; [done|..];
      simpl.
    + rewrite IH. simpl. unfold deltas. simpl.
      by rewrite append_assoc, <- app_assoc.
    + by rewrite IH.
Qed.

(** X9. A stream that ends normally and whose chunks all carry a choice
    makes [generate_chat_response] return the pieces of text joined in
    order (chunks without text are skipped).  On the screen the placeholder
    shows, after each piece, the text so far followed by the cursor, and at
    the end the whole text without it; each text shown on the way is a
    beginning of the final one, and the transcript is not touched. *)
Theorem streamed_text_grows (msgs : list ChatMessage) (s : Stream) (w : World) :
  create_stream (chat_args msgs true) = Ok s →
  interrupted s = None →
  Forall (λ chunk, chunk_choices chunk ≠ []) (chunks s) →
  let full := whole (deltas (chunks s)) in
  generate_chat_response msgs true w =
    (Ok (Some full),
     {| session_messages := session_messages w;
        screen := screen w ++ [st_empty]
                  ++ ((λ p, placeholder_markdown (p +:+ cursor))
                        <$> running EmptyString (deltas (chunks s)))
                  ++ [placeholder_markdown full] |})
  ∧ ∀ p, p ∈ running EmptyString (deltas (chunks s)) → ∃ rest, full = p +:+ rest.
Proof.
  intros Hcall Hend Hwf full. split.
  - unfold generate_chat_response. run. rewrite Hcall. simpl.
    rewrite consume_pieces by done. rewrite Hend. simpl.
    by rewrite <- !app_assoc.
  - intros p Hp. by apply (running_prefix EmptyString).
Qed.

(** How [generate_chat_response] can end. *)
Lemma generate_outcome (msgs : list ChatMessage) (streaming : bool) (w : World) :
  ∃ reply w',
    generate_chat_response msgs streaming w = (Ok reply, w')
    ∧ draws_only w w'
    ∧ (streaming = true → is_Some reply).
Proof.
  unfold generate_chat_response. run. destruct streaming.
  - destruct (create_stream (chat_args msgs true)) as [s|e]; simpl.
    + destruct (consume_draws_only (chunks s) EmptyString (report w st_empty))
        as ([full|e] & w' & Hrun & Hw').
      * unfold report in Hrun. rewrite Hrun.
        destruct (interrupted s) as [e|]; simpl.
        -- eexists _, _. split_and!; [done| |by eauto].
           eapply draws_only_trans; [apply draws_only_report|].
           eapply draws_only_trans; [done|]. apply (draws_only_report w').
        -- eexists _, _. split_and!; [done| |by eauto].
           eapply draws_only_trans; [apply draws_only_report|].
           eapply draws_only_trans; [done|]. apply (draws_only_report w').
      * unfold report in Hrun. rewrite Hrun. simpl.
        eexists _, _. split_and!; [done| |by eauto].
        eapply draws_only_trans; [apply draws_only_report|].
        eapply draws_only_trans; [done|]. apply (draws_only_report w').
    + eexists _, _. split_and!; [done| |by eauto]. apply (draws_only_report w).
  - destruct (create (chat_args msgs false)) as [response|e]; simpl.
    + destruct (choices response) as [|choice rest]; simpl.
      * eexists _, _. split_and!; [done| |done]. apply (draws_only_report w).
      * eexists _, _. split_and!; [done| |done]. apply draws_only_refl.
    + eexists _, _. split_and!; [done| |done]. apply (draws_only_report w).
Qed.

(** X10. [generate_chat_response] never raises, whatever the completion
    service does and in both modes; it only draws on the screen and leaves
    the transcript alone, and in streaming mode it always returns a text. *)
Theorem generate_never_raises (msgs : list ChatMessage) (streaming : bool)
    (w : World) :
  ∃ reply w',
    generate_chat_response msgs streaming w = (Ok reply, w')
    ∧ session_messages w' = session_messages w
    ∧ (∃ drawn, screen w' = screen w ++ drawn)
    ∧ (streaming = true → is_Some reply).
Proof.
  destruct (generate_outcome msgs streaming w) as (reply & w' & ? & [? ?] & ?).
  by exists reply, w'.
Qed.

(** ** The chat turn *)

(** X11. The prompt built for a turn holds nothing of the earlier
    conversation: it is the same whatever the transcript and the screen
    are, it has two or three messages, it starts with a system message, and
    its second message is the user's text as typed. *)
Theorem prompt_ignores_transcript (prompt muscle_group : string) (w w' : World) :
  (compose_messages prompt muscle_group w).1
    = (compose_messages prompt muscle_group w').1
  ∧ match (compose_messages prompt muscle_group w).1 with
    | Ok msgs =>
        (msg_role <$> msgs = [system; user]
         ∨ msg_role <$> msgs = [system; user; assistant])
        ∧ msgs !! 1%nat = Some (Msg user (Some prompt))
    | Raise e => is_RequestException e = false
    end.
Proof.
  unfold compose_messages. case_decide; [|by split; [|split; [left|]]].
  pose proof (lookup_result_fixed muscle_group w w') as Hfixed.
  pose proof (lookup_raises_only_other muscle_group w) as Hraise.
  run.
  destruct (get_exercise_info muscle_group w) as [[[|ex rest]|e] w1];
    destruct (get_exercise_info muscle_group w') as [r' w1'];
    simpl in Hfixed; subst r'; simpl; (split; [done|]); eauto.
Qed.

(** X12. A chat turn records the user's text first.  Whenever it ends
    normally, the transcript has grown by exactly that user turn followed
    by one assistant turn, which holds a text; whenever it breaks off, the
    transcript holds the user turn and no answer to it. *)
Theorem turn_transcript (prompt : string) (w : World) :
  ∃ res w',
    on_chat_input prompt w = (res, w')
    ∧ match res with
      | Ok _ =>
          ∃ reply,
            session_messages w' =
              session_messages w
              ++ [Msg user (Some prompt); Msg assistant (Some reply)]
      | Raise _ =>
          session_messages w' = session_messages w ++ [Msg user (Some prompt)]
      end.
Proof.
  unfold on_chat_input. run.
  destruct (prepare_turn prompt w) as [[msgs|e] w1] eqn:Hprep.
  - pose proof (prepare_turn_transcript _ _ _ _ Hprep) as Hm1. simpl.
    match goal with |- context [generate_chat_response msgs true ?w0] =>
      destruct (generate_outcome msgs true w0)
        as (reply & w2 & Hgen & [Hm2 _] & Hsome) end.
    rewrite Hgen. simpl. destruct (Hsome eq_refl) as [text ->].
    eexists _, _. split; [done|]. exists text. simpl.
    rewrite Hm2. simpl. rewrite Hm1. by rewrite <- app_assoc.
  - eexists _, _. split; [done|].
    apply (prepare_turn_transcript _ _ _ _ Hprep).
Qed.

End WorkoutFurther.

(** ** Further samples of the chat page *)

Lemma purpose_ignores_case_bench :
  Workout.get_equipment_purpose (H := Workout.coach) "BENCH"
  = Workout.get_equipment_purpose (H := Workout.coach) "bench".
Proof.
  apply (@purpose_ignores_case Workout.coach "BENCH" "bench"). reflexivity.
Defined.

Lemma purpose_of_unknown_treadmill :
  Workout.get_equipment_purpose (H := Workout.coach) "Treadmill"
  = "Purpose not found".
Proof.
  apply (@purpose_of_unknown Workout.coach "Treadmill").
  repeat constructor; discriminate.
Defined.

Lemma purpose_of_first_match_bench :
  Workout.get_equipment_purpose (H := Workout.coach) "bench"
  = "Support for presses".
Proof.
  apply (@purpose_of_first_match Workout.coach "bench"
           [ {| Workout.Equipment_Name := "Dumbbells";
                Workout.Purpose := "Strength training" |} ]
           []
           {| Workout.Equipment_Name := "Bench";
              Workout.Purpose := "Support for presses" |}).
  - reflexivity.
  - repeat constructor; discriminate.
  - reflexivity.
Defined.


Lemma lookup_success_coach :
  Workout.get_exercise_info (H := Workout.coach) "Biceps" Workout.blank
  = (Ok [Workout.hammer_curl], Workout.blank).
Proof.
  eapply (@lookup_success Workout.coach "Biceps" Workout.blank).
  - reflexivity.
  - simpl. lia.
  - reflexivity.
Defined.

Lemma lookup_undecodable_sample :
  ∃ msg,
    Workout.get_exercise_info (H := Workout.junk_body) "Biceps" Workout.blank
    = (Ok [], Workout.report Workout.blank
                (Workout.st_error ("Error fetching exercise data: " +:+ msg))).
Proof.
  eapply (@lookup_undecodable Workout.junk_body "Biceps" Workout.blank).
  - reflexivity.
  - simpl. lia.
  - reflexivity.
Defined.

Lemma lookup_propagates_other_sample :
  Workout.get_exercise_info (H := Workout.broken_transport) "Biceps"
    Workout.blank
  = (Raise (Exc TypeError "expected string or bytes-like object"), Workout.blank).
Proof.
  apply (@lookup_propagates_other Workout.broken_transport "Biceps"
           Workout.blank); reflexivity.
Defined.

Lemma extracted_group_is_sent_unchanged_sample :
  lower "biceps" = "biceps"
  ∧ Workout.lookup_request (H := Workout.coach) "biceps"
    = @Workout.requests_get Workout.coach Workout.exercises_url
        [("X-Api-Key", @Workout.API_NINJAS_KEY Workout.coach)]
        [("muscle", "biceps")].
Proof.
  apply (@extracted_group_is_sent_unchanged Workout.coach
           "How do I train my Biceps?" "biceps").
  reflexivity.
Defined.

Lemma streamed_text_grows_coach :
  Workout.generate_chat_response (H := Workout.coach) [] true Workout.blank
  = (Ok (Some "Start light."),
     {| Workout.session_messages := [];
        Workout.screen :=
          [ Workout.st_empty;
            Workout.placeholder_markdown "Start▌";
            Workout.placeholder_markdown "Start light.▌";
            Workout.placeholder_markdown "Start light." ] |})
  ∧ ∀ p, p ∈ ["Start"; "Start light."] → ∃ rest, "Start light." = p +:+ rest.
Proof.
  apply (@streamed_text_grows Workout.coach [] Workout.coach_stream
           Workout.blank).
  - reflexivity.
  - reflexivity.
  - repeat constructor; discriminate.
Defined.

(** * Further properties of the analysis page *)

(** ** Counting *)

Lemma nunique_le_length `{EqDecision A} (col : list A) :
  (Analysis.nunique col ≤ length col)%nat.
Proof.
  unfold Analysis.nunique.
  induction col as [|x col IH]; simpl; [done|]. case_decide; simpl; lia.
Qed.

Lemma nunique_positive `{EqDecision A} (x : A) (col : list A) :
  (1 ≤ Analysis.nunique (x :: col))%nat.
Proof.
  unfold Analysis.nunique.
  assert (x ∈ remove_dups (x :: col)) as Hin
    by (apply elem_of_remove_dups; left).
  destruct (remove_dups (x :: col)); [by apply elem_of_nil in Hin|simpl; lia].
Qed.

(** Distinct days between [lo] and [hi] are at most the days of the span. *)
Lemma distinct_days_within (days : list Z) (lo hi : Z) :
  lo ≤ hi →
  (∀ d, d ∈ days → lo ≤ d ≤ hi) →
  Z.of_nat (size (list_to_set days : gset Z)) ≤ hi - lo + 1.
Proof.
  intros Hspan Hin.
  assert (list_to_set days ⊆ (list_to_set (seqZ lo (hi - lo + 1)) : gset Z))
    as Hsub.
  { intros d. rewrite !elem_of_list_to_set, elem_of_seqZ.
    intros Hd%Hin. lia. }
  apply subseteq_size in Hsub.
  rewrite (size_list_to_set (seqZ lo (hi - lo + 1))) in Hsub
    by apply NoDup_seqZ.
  rewrite length_seqZ in Hsub. lia.
Qed.

Lemma length_filter_split {A} (P : A → Prop) `{∀ x, Decision (P x)}
    (l : list A) :
  (length (filter P l) + length (filter (λ x, ¬ P x) l) = length l)%nat.
Proof.
  induction l as [|x l IH]; [done|].
  rewrite !filter_cons. destruct (decide (P x)) as [HP|HP].
  - rewrite decide_False by tauto. simpl. lia.
  - rewrite decide_True by done. simpl. lia.
Qed.

Lemma sum_list_with_ext {A} (f g : A → nat) (l : list A) :
  (∀ x, x ∈ l → f x = g x) → sum_list_with f l = sum_list_with g l.
Proof.
  induction l as [|x l IH]; intros Hfg; simpl; [done|].
  rewrite (Hfg x) by left. rewrite IH; [done|].
  intros y Hy. apply Hfg. by right.
Qed.

Lemma sum_list_fmap {A} (f : A → nat) (l : list A) :
  sum_list (f <$> l) = sum_list_with f l.
Proof. induction l as [|x l IH]; simpl; [done|]. by f_equal. Qed.

(** Rows counted key by key, over keys that are distinct and cover the
    rows, are all the rows. *)
Lemma counts_by_key {A K} `{EqDecision K} (key : A → K) (ks : list K)
    (l : list A) :
  NoDup ks →
  (∀ x, x ∈ l → key x ∈ ks) →
  sum_list_with (λ k, length (filter (λ x, key x = k) l)) ks = length l.
Proof.
  intros Hnd. revert l. induction Hnd as [|k ks Hk Hnd IH]; intros l Hcover.
  - destruct l as [|x l]; [done|].
    by specialize (Hcover x ltac:(left)); apply elem_of_nil in Hcover.
  - simpl. rewrite <- (length_filter_split (λ x, key x = k) l). f_equal.
    rewrite <- (IH (filter (λ x, ¬ key x = k) l)).
    + apply sum_list_with_ext. intros k' Hk'.
      rewrite list_filter_filter. f_equal. apply list_filter_iff.
      intros x. split; [|by intros [? ?]]. intros Hx. split; [done|].
      intros Hxk. apply Hk. by rewrite <- Hxk, Hx.
    + intros x [Hx Hin]%list_elem_of_filter.
      pose proof (Hcover x Hin) as Hc. by apply elem_of_cons in Hc as [?|?].
Qed.

(** The counts of a frequency table add up to the length of its column. *)
Lemma value_counts_total (col : list string) :
  Analysis.total_count (Analysis.value_counts col) = length col.
Proof.
  unfold Analysis.total_count.
  set (m := Analysis.value_counts col).
  assert ((map_to_list m).*2
          = (λ k, length (filter (λ x, id x = k) col)) <$> (map_to_list m).*1)
    as ->.
  { rewrite <- list_fmap_compose. apply list_fmap_ext.
    intros i [k n] Hkn. simpl.
    apply list_elem_of_lookup_2, elem_of_map_to_list in Hkn.
    unfold m in Hkn. rewrite value_counts_frequency in Hkn.
    unfold Analysis.frequency, Analysis.occurrences in Hkn.
    by case_decide; simplify_eq. }
  rewrite sum_list_fmap. apply counts_by_key.
  - apply NoDup_fst_map_to_list.
  - intros x Hx. simpl.
    assert (is_Some (m !! x)) as [n Hn].
    { unfold m. rewrite value_counts_frequency.
      unfold Analysis.frequency, Analysis.occurrences.
      rewrite decide_False; [by eauto|].
      intros Hzero. apply length_zero_iff_nil in Hzero.
      assert (x ∈ filter (λ y, y = x) col) as Hin
        by (by apply list_elem_of_filter).
      rewrite Hzero in Hin. by apply elem_of_nil in Hin. }
    apply list_elem_of_fmap. exists (x, n). split; [done|].
    by apply elem_of_map_to_list.
Qed.

(** Sorted and without repetition is strictly ascending. *)
Lemma sorted_nodup_strict (l : list Z) :
  Sorted Z.le l → NoDup l → StronglySorted Z.lt l.
Proof.
  intros Hs%(Sorted_StronglySorted _). induction Hs as [|x l Hs IH Hall].
  - constructor.
  - intros [Hx Hnd]%NoDup_cons. constructor; [by apply IH|].
    rewrite Forall_forall in Hall |- *. intros y Hy.
    specialize (Hall y Hy). assert (x ≠ y) by (by intros ->). lia.
Qed.

Lemma frame_dates (memories : list Analysis.LogEntry) :
  Analysis.date <$> Analysis.frame_of memories
  = Analysis.to_datetime <$> (Analysis.log_date <$> memories).
Proof. unfold Analysis.frame_of. by rewrite <- !list_fmap_compose. Qed.

Lemma span_of_days (x : Z) (xs : list Z) : foldr Z.min x xs ≤ foldr Z.max x xs.
Proof.
  destruct (col_min_spec x xs) as [_ Hmin].
  destruct (col_max_spec x xs) as [_ Hmax].
  specialize (Hmin x ltac:(left)). specialize (Hmax x ltac:(left)). lia.
Qed.

(** ** Statistics, metrics and charts *)

(** X15. In the statistics of a log of calendar dates there is at least
    one active day, and the active days exceed neither the number of
    entries nor the number of days of the period. *)
Theorem activity_bounds (e : Analysis.LogEntry)
    (entries : list Analysis.LogEntry) :
  ∃ st,
    Analysis.analysis_stats (Analysis.frame_of (e :: entries)) = Ok st
    ∧ (1 ≤ Analysis.days_active st ≤ Analysis.total_workouts st)%nat
    ∧ Z.of_nat (Analysis.days_active st) ≤ Analysis.total_days st.
Proof.
  unfold Analysis.analysis_stats. rewrite frame_dates.
  rewrite !fmap_cons.
  cbn [Analysis.col_min Analysis.col_max Analysis.strftime_ymd].
  rewrite min_to_datetime, max_to_datetime, days_between.
  eexists. split; [reflexivity|].
  cbn [Analysis.total_days Analysis.days_active Analysis.total_workouts].
  split_and!.
  - apply nunique_positive.
  - rewrite <- !fmap_cons.
    etrans; [apply nunique_le_length|].
    unfold Analysis.frame_of. by rewrite !length_fmap.
  - rewrite <- !fmap_cons, nunique_fmap by apply _.
    rewrite nunique_distinct. rewrite fmap_cons.
    destruct (col_min_spec (Analysis.log_date e)
                (Analysis.log_date <$> entries)) as [_ Hmin].
    destruct (col_max_spec (Analysis.log_date e)
                (Analysis.log_date <$> entries)) as [_ Hmax].
    apply distinct_days_within; [apply span_of_days|].
    intros d Hd. split; [by apply Hmin|by apply Hmax].
Qed.

(** X16. The three numbers shown above the charts: on a frame with a row,
    the unique exercises and the active days are each at least one and at
    most the total of workouts. *)
Theorem metrics_bounds (r : Analysis.Row) (rows : list Analysis.Row) :
  let '(total, unique, days) := Analysis.metrics (r :: rows) in
  total = S (length rows)
  ∧ (1 ≤ unique ≤ total)%nat
  ∧ (1 ≤ days ≤ total)%nat.
Proof.
  unfold Analysis.metrics. rewrite !fmap_cons. split_and!; try done.
  - apply nunique_positive.
  - etrans; [apply nunique_le_length|]. simpl. by rewrite length_fmap.
  - apply nunique_positive.
  - etrans; [apply nunique_le_length|]. simpl. by rewrite length_fmap.
Qed.

(** X17. The two bar charts are drawn for a frame with rows and for no
    other; the bars of each add up to the number of rows, and every bar
    stands for a value that occurs in the frame. *)
Theorem chart_bars_cover_rows (df : option (list Analysis.Row)) :
  match df with
  | Some (r :: rows) =>
      ∃ kinds muscles,
        Analysis.create_workout_type_chart df = Some kinds
        ∧ Analysis.create_muscle_group_chart df = Some muscles
        ∧ Analysis.total_count kinds = S (length rows)
        ∧ Analysis.total_count muscles = S (length rows)
        ∧ (∀ v n, kinds !! v = Some n →
             (1 ≤ n)%nat ∧ ∃ row, row ∈ r :: rows ∧ Analysis.workout_type row = v)
        ∧ (∀ v n, muscles !! v = Some n →
             (1 ≤ n)%nat ∧ ∃ row, row ∈ r :: rows ∧ Analysis.muscle_group row = v)
  | _ =>
      Analysis.create_workout_type_chart df = None
      ∧ Analysis.create_muscle_group_chart df = None
  end.
Proof.
  destruct df as [[|r rows]|]; try done.
  assert (∀ (column : Analysis.Row → string) v n,
            Analysis.value_counts (column <$> r :: rows) !! v = Some n →
            (1 ≤ n)%nat ∧ ∃ row, row ∈ r :: rows ∧ column row = v) as Hbar.
  { intros column v n. rewrite value_counts_frequency.
    unfold Analysis.frequency, Analysis.occurrences.
    destruct (filter (λ x, x = v) (column <$> r :: rows)) as [|x l] eqn:Hf;
      [done|].
    simpl. intros [= <-]. split; [lia|].
    assert (x ∈ filter (λ x, x = v) (column <$> r :: rows)) as Hx
      by (rewrite Hf; left).
    apply list_elem_of_filter in Hx as [-> Hx].
    apply list_elem_of_fmap in Hx as (row & -> & Hrow). eauto. }
  eexists _, _. split_and!; [done|done| | |apply Hbar|apply Hbar].
  - rewrite value_counts_total. by rewrite length_fmap.
  - rewrite value_counts_total. by rewrite length_fmap.
Qed.

(** X18. The heatmap table has one row per date of the frame, in strictly
    ascending order of the dates; every row counts at least one exercise,
    the counts add up to the number of rows of the frame, and there are as
    many rows as the "Days Active" metric says.  No heatmap is made for an
    empty frame. *)
Theorem heatmap_rows (df : list Analysis.Row) :
  let rows := Analysis.daily_activity df in
  StronglySorted Z.lt rows.*1
  ∧ (∀ d, d ∈ rows.*1 ↔ ∃ r, r ∈ df ∧ Analysis.date r = d)
  ∧ Forall (λ p, (1 ≤ p.2)%nat) rows
  ∧ sum_list rows.*2 = length df
  ∧ length rows = (Analysis.metrics df).2
  ∧ (Analysis.create_activity_heatmap (Some df) = None ↔ df = []).
Proof.
  unfold Analysis.daily_activity.
  set (days := merge_sort Z.le (remove_dups (Analysis.date <$> df))).
  assert (days ≡ₚ remove_dups (Analysis.date <$> df)) as Hperm
    by apply merge_sort_Permutation.
  assert (∀ d, d ∈ days ↔ ∃ r, r ∈ df ∧ Analysis.date r = d) as Hdays.
  { intros d. rewrite Hperm, elem_of_remove_dups, list_elem_of_fmap.
    split; intros (r & ? & ?); eauto. }
  assert (NoDup days) as Hnd by (rewrite Hperm; apply NoDup_remove_dups).
  assert ((fst ∘ (λ d : Z, (d, length (filter (λ r, Analysis.date r = d) df))))
            <$> days = days) as Hfst.
  { rewrite <- (list_fmap_id days) at 2. by apply list_fmap_ext. }
  simpl. rewrite <- !list_fmap_compose, Hfst. split_and!.
  - apply sorted_nodup_strict; [|done]. apply Sorted_merge_sort. apply _.
  - done.
  - apply Forall_fmap, Forall_forall. intros d [r [Hr Hd]]%Hdays. simpl.
    assert (r ∈ filter (λ r, Analysis.date r = d) df) as Hin
      by (by apply list_elem_of_filter).
    destruct (filter _ df); [by apply elem_of_nil in Hin|simpl; lia].
  - rewrite sum_list_fmap. apply (counts_by_key Analysis.date); [done|].
    intros r Hr. apply Hdays. eauto.
  - rewrite length_fmap. unfold Analysis.metrics, Analysis.nunique. simpl.
    by rewrite Hperm.
  - destruct df; simpl; split; done.
Qed.

Section AnalysisFurther.
Import Analysis.
Context `{Analysis.Env}.

(** ** The history table and its select boxes *)

(** The rows kept and the rows shown, over a kernel that meets its
    contract. *)
Lemma history_rows (selected_type selected_muscle selected_difficulty : string)
    (df0 : list Row) :
  argsort_contract argsort →
  ∃ page,
    exercise_history selected_type selected_muscle selected_difficulty df0
      = Ok page
    ∧ filtered_df page =
        filter (λ r, accepts selected_type (workout_type r)
                     ∧ accepts selected_muscle (muscle_group r)
                     ∧ accepts selected_difficulty (difficulty r)) df0
    ∧ table page ≡ₚ filtered_df page.
Proof.
  intros Hkernel. unfold exercise_history.
  rewrite !criterion_filter, !list_filter_filter.
  match goal with |- context [sort_values_date_desc ?f] =>
    set (kept := f);
    destruct (sort_values_date_desc_sorted kept Hkernel)
      as (rows & -> & Hperm & _) end.
  eexists. split; [reflexivity|]. cbn [filtered_df table]. split; [|done].
  unfold kept. apply list_filter_iff. intros r. tauto.
Qed.

(** X19. With the three select boxes on "All", which is where they
    start, nothing is filtered away: the rows kept are the frame itself and
    the table shows every row of it. *)
Theorem default_view_shows_all (df0 : list Row) :
  argsort_contract argsort →
  ∃ page,
    exercise_history "All" "All" "All" df0 = Ok page
    ∧ head (select_options (workout_type <$> df0)) = Some "All"
    ∧ filtered_df page = df0
    ∧ table page ≡ₚ df0.
Proof.
  intros Hkernel.
  destruct (history_rows "All" "All" "All" df0 Hkernel)
    as (page & Hpage & Hkept & Hshown).
  assert (filtered_df page = df0) as Hall.
  { rewrite Hkept. clear. induction df0 as [|r df0 IH]; [done|].
    rewrite filter_cons_True; [by rewrite IH|].
    unfold accepts. tauto. }
  exists page. split_and!; try done. by rewrite Hshown, Hall.
Qed.

(** X20. Every value of a column is offered by its select box, and every
    workout type the box offers, chosen alone, leaves at least one row in
    the table. *)
Theorem offered_type_shows_rows (df0 : list Row) (choice : string) :
  argsort_contract argsort →
  choice ∈ select_options (workout_type <$> df0) →
  df0 ≠ [] →
  (∀ r, r ∈ df0 → workout_type r ∈ select_options (workout_type <$> df0))
  ∧ ∃ page,
      exercise_history choice "All" "All" df0 = Ok page
      ∧ filtered_df page ≠ []
      ∧ table page ≠ []
      ∧ ∀ r, r ∈ table page → choice = "All" ∨ workout_type r = choice.
Proof.
  intros Hkernel Hchoice Hrows.
  assert (∀ v, v ∈ select_options (workout_type <$> df0) ↔
               v = "All" ∨ v ∈ workout_type <$> df0) as Hoptions.
  { intros v. unfold select_options, sorted.
    by rewrite elem_of_cons, merge_sort_Permutation, elem_of_remove_dups. }
  split.
  { intros r Hr. apply Hoptions. right. by apply list_elem_of_fmap_2. }
  destruct (history_rows choice "All" "All" df0 Hkernel)
    as (page & Hpage & Hkept & Hshown).
  assert (∃ r, r ∈ filtered_df page) as [r Hr].
  { rewrite Hkept. apply Hoptions in Hchoice as [->|Hin].
    - destruct df0 as [|r df0]; [done|]. exists r.
      apply list_elem_of_filter. unfold accepts. split; [tauto|left].
    - apply list_elem_of_fmap in Hin as (r & -> & Hr). exists r.
      apply list_elem_of_filter. unfold accepts. split; [tauto|done]. }
  exists page. split_and!; [done| | |].
  - intros Hnil. rewrite Hnil in Hr. by apply elem_of_nil in Hr.
  - intros Hnil. rewrite <- Hshown, Hnil in Hr. by apply elem_of_nil in Hr.
  - intros r' Hr'. rewrite Hshown, Hkept in Hr'.
    apply list_elem_of_filter in Hr' as [(Hacc & _ & _) _]. exact Hacc.
Qed.

(** ** The analysis text *)

Lemma analysis_stats_of_rows (r : Row) (rows : list Row) :
  ∃ st,
    analysis_stats (r :: rows) = Ok st
    ∧ start_date st = strftime (foldr Z.min (date r) (date <$> rows))
    ∧ end_date st = strftime (foldr Z.max (date r) (date <$> rows))
    ∧ total_days st =
        Timedelta_days (foldr Z.max (date r) (date <$> rows)
                        - foldr Z.min (date r) (date <$> rows)) + 1.
Proof. eexists. split; [reflexivity|]. done. Qed.

(** X21. When the secret is at hand and the completion answers with a
    text, [get_ai_analysis] returns that text unchanged behind a header
    line that names the earliest and the latest date of the frame and the
    days from one to the other, both included. *)
Theorem analysis_success_text (r : Row) (rows : list Row) (key : string)
    (args : CreateArgs) (response : ChatCompletion) (choice : Choice)
    (others : list Choice) (analysis : string) :
  st_secrets "API_KEY" = Ok key →
  analysis_request (r :: rows) = Ok args →
  create args = Ok response →
  choices response = choice :: others →
  message_content choice = Some analysis →
  let earliest := foldr Z.min (date r) (date <$> rows) in
  let latest := foldr Z.max (date r) (date <$> rows) in
  get_ai_analysis (r :: rows)
  = Ok (nl +:+ "Analysis Period: " +:+ strftime earliest +:+ " to "
        +:+ strftime latest +:+ " ("
        +:+ pretty (Timedelta_days (latest - earliest) + 1) +:+ " days)"
        +:+ nl +:+ nl +:+ analysis).
Proof.
  intros Hkey Hreq Hcreate Hchoices Htext earliest latest.
  destruct (analysis_stats_of_rows r rows) as (st & Hst & Hfirst & Hlast & Hdays).
  unfold get_ai_analysis, get_ai_analysis_try, analysis_request, try_except
    in *.
  unfold mbind, result_bind, rbind in *. rewrite Hkey, Hst in *.
  injection Hreq as <-. rewrite Hcreate, Hchoices. simpl. rewrite Htext.
  rewrite Hfirst, Hlast, Hdays. by rewrite !append_assoc.
Qed.

End AnalysisFurther.

(** ** Further samples of the analysis page *)

Lemma heatmap_of_five_days :
  Analysis.create_activity_heatmap
    (Some (Analysis.frame_of Analysis.five_day_log))
  = Some [ (Analysis.to_datetime (Analysis.days_from_civil 2024 1 1), 2%nat);
           (Analysis.to_datetime (Analysis.days_from_civil 2024 1 2), 1%nat);
           (Analysis.to_datetime (Analysis.days_from_civil 2024 1 5), 2%nat) ].
Proof. vm_compute. reflexivity. Qed.

Lemma options_of_cardio_log :
  Analysis.select_options (Analysis.workout_type <$> Analysis.cardio_log)
  = ["All"; "Cardio"; "Strength"]
  ∧ Analysis.select_options (Analysis.muscle_group <$> Analysis.cardio_log)
    = ["All"; "back"; "legs"].
Proof. split; vm_compute; reflexivity. Qed.

Lemma default_view_shows_all_cardio :
  ∃ page,
    Analysis.exercise_history (H := Analysis.service_down)
      "All" "All" "All" Analysis.cardio_log = Ok page
    ∧ head (Analysis.select_options
              (Analysis.workout_type <$> Analysis.cardio_log)) = Some "All"
    ∧ Analysis.filtered_df page = Analysis.cardio_log
    ∧ Analysis.table page ≡ₚ Analysis.cardio_log.
Proof.
  apply (@default_view_shows_all Analysis.service_down Analysis.cardio_log).
  exact merge_argsort_contract.
Defined.

Lemma offered_type_shows_rows_strength :
  (∀ r, r ∈ Analysis.cardio_log →
        Analysis.workout_type r
        ∈ Analysis.select_options (Analysis.workout_type <$> Analysis.cardio_log))
  ∧ ∃ page,
      Analysis.exercise_history (H := Analysis.service_down)
        "Strength" "All" "All" Analysis.cardio_log = Ok page
      ∧ Analysis.filtered_df page ≠ []
      ∧ Analysis.table page ≠ []
      ∧ ∀ r, r ∈ Analysis.table page →
             "Strength" = "All" ∨ Analysis.workout_type r = "Strength".
Proof.
  apply (@offered_type_shows_rows Analysis.service_down Analysis.cardio_log
           "Strength").
  - exact merge_argsort_contract.
  - apply list_elem_of_In. vm_compute. tauto.
  - discriminate.
Defined.

Lemma analysis_success_text_two_days :
  Analysis.get_ai_analysis (H := Analysis.analyst)
    (Analysis.frame_of Analysis.two_day_log)
  = Ok (nl +:+ "Analysis Period: 2024-01-01 to 2024-01-03 (3 days)"
        +:+ nl +:+ nl +:+ "You are consistent.").
Proof.
  etrans.
  - eapply (@analysis_success_text Analysis.analyst _ _ "sk-test" _ _ _ []
              "You are consistent."); reflexivity.
  - vm_compute. reflexivity.
Defined.
